(** * calendarapp/views.py: the month grid and its navigation targets

    A shallow embedding of [calendarapp/views.py] together with the parts
    of CPython's [datetime] and [calendar] modules and of the builtin
    [int] that the view calls.  Python integers are [Z]; floor division
    and modulo are [Z.div] and [Z.modulo], which round like Python's [//]
    and [%] for the positive divisors used here.  Raising code returns a
    [result].  The interpreter runs the C implementation of [date], whose
    constructor converts its arguments to C [int]s before it checks
    them; its ordinal arithmetic is the one of [datetime.py]. *)

From stdpp Require Import base numbers option list gmap strings.
From Stdlib Require Import ZArith Lia Ascii.

Local Open Scope Z_scope.

(** ** Exceptions and the error monad *)

(** The exception classes that the modelled code can raise.
    [IllegalMonthError] is [calendar]'s subclass of [ValueError]. *)
Inductive exn : Type :=
  | TypeError
  | ValueError
  | OverflowError
  | IllegalMonthError (month : Z).

Inductive result (A : Type) : Type :=
  | Ok (a : A)
  | Raise (e : exn).
Arguments Ok {A} a.
Arguments Raise {A} e.

#[global] Instance result_ret : MRet result := λ A a, Ok a.
#[global] Instance result_bind : MBind result := λ A B f r,
  match r with Ok a => f a | Raise e => Raise e end.
#[global] Instance result_fmap : FMap result := λ A B f r,
  match r with Ok a => Ok (f a) | Raise e => Raise e end.

(** [isinstance(e, ValueError)] and [isinstance(e, TypeError)]. *)
Definition is_ValueError (e : exn) : bool :=
  match e with ValueError | IllegalMonthError _ => true | _ => false end.
Definition is_TypeError (e : exn) : bool :=
  match e with TypeError => true | _ => false end.

(** [try: body  except <catches>: handler]; an exception that the clause
    does not name propagates. *)
Definition try_except {A} (body : result A) (catches : exn → bool)
    (handler : result A) : result A :=
  match body with
  | Ok a => Ok a
  | Raise e => if catches e then handler else Raise e
  end.

(** [l[i]] for an index that the caller keeps inside [0 .. len(l) - 1]. *)
Definition getitem (l : list Z) (i : Z) : Z := nth (Z.to_nat i) l 0.

(** ** datetime *)

Module dt.

Definition MINYEAR : Z := 1.
Definition MAXYEAR : Z := 9999.
Definition _MAXORDINAL : Z := 3652059.

Definition _DAYS_IN_MONTH : list Z :=
  [-1; 31; 28; 31; 30; 31; 30; 31; 31; 30; 31; 30; 31].

(** The module fills [_DAYS_BEFORE_MONTH] with a loop over
    [_DAYS_IN_MONTH[1:]] that appends the running sum [dbm]. *)
Definition _DAYS_BEFORE_MONTH : list Z :=
  fst (foldl (λ '(acc, dbm) dim, (acc ++ [dbm], dbm + dim))
             ([-1], 0) (tail _DAYS_IN_MONTH)).

Definition _is_leap (year : Z) : bool :=
  (year mod 4 =? 0) && (negb (year mod 100 =? 0) || (year mod 400 =? 0)).

Definition _days_before_year (year : Z) : Z :=
  let y := year - 1 in
  y * 365 + y / 4 - y / 100 + y / 400.

(** Called with [1 <= month <= 12] only (an [assert] in the source). *)
Definition _days_in_month (year month : Z) : Z :=
  if (month =? 2) && _is_leap year then 29 else getitem _DAYS_IN_MONTH month.

(** Called with [1 <= month <= 12] only (an [assert] in the source). *)
Definition _days_before_month (year month : Z) : Z :=
  getitem _DAYS_BEFORE_MONTH month + Z.b2z ((month >? 2) && _is_leap year).

(** Called on valid dates only (two [assert]s in the source). *)
Definition _ymd2ord (year month day : Z) : Z :=
  _days_before_year year + _days_before_month year month + day.

Definition _DI400Y : Z := _days_before_year 401.
Definition _DI100Y : Z := _days_before_year 101.
Definition _DI4Y : Z := _days_before_year 5.

Definition _ord2ymd (n : Z) : Z * Z * Z :=
  let n := n - 1 in
  let n400 := n / _DI400Y in
  let n := n mod _DI400Y in
  let year := n400 * 400 + 1 in
  let n100 := n / _DI100Y in
  let n := n mod _DI100Y in
  let n4 := n / _DI4Y in
  let n := n mod _DI4Y in
  let n1 := n / 365 in
  let n := n mod 365 in
  let year := year + (n100 * 100 + n4 * 4 + n1) in
  if (n1 =? 4) || (n100 =? 4) then (year - 1, 12, 31)
  else
    let leapyear := (n1 =? 3) && (negb (n4 =? 24) || (n100 =? 3)) in
    let month := Z.shiftr (n + 50) 5 in
    let preceding :=
      getitem _DAYS_BEFORE_MONTH month + Z.b2z ((month >? 2) && leapyear) in
    let '(month, preceding) :=
      if preceding >? n then
        let month := month - 1 in
        (month,
         preceding
         - (getitem _DAYS_IN_MONTH month + Z.b2z ((month =? 2) && leapyear)))
      else (month, preceding) in
    let n := n - preceding in
    (year, month, n + 1).

(** A [date] object: the three fields behind the read-only properties. *)
Record date : Type := mkdate { year : Z; month : Z; day : Z }.

(** The range of a C [int]. *)
Definition INT_MIN : Z := - 2 ^ 31.
Definition INT_MAX : Z := 2 ^ 31 - 1.

(** The conversion of an argument to a C [int] (format [i] of
    [PyArg_ParseTuple]): a Python integer outside the range of [int]
    raises [OverflowError]. *)
Definition as_int (z : Z) : result Z :=
  if (INT_MIN <=? z) && (z <=? INT_MAX) then Ok z else Raise OverflowError.

(** The range checks on the converted arguments ([check_date_args] in
    the C implementation, [_check_date_fields] in [datetime.py]). *)
Definition _check_date_fields (year month day : Z) : result (Z * Z * Z) :=
  if negb ((MINYEAR <=? year) && (year <=? MAXYEAR)) then Raise ValueError
  else if negb ((1 <=? month) && (month <=? 12)) then Raise ValueError
  else
    let dim := _days_in_month year month in
    if negb ((1 <=? day) && (day <=? dim)) then Raise ValueError
    else Ok (year, month, day).

(** [date(year, month, day)]: the three arguments are converted to C
    [int]s, then checked. *)
Definition new (year month day : Z) : result date :=
  year ← as_int year;
  month ← as_int month;
  day ← as_int day;
  '(y, m, d) ← _check_date_fields year month day;
  Ok (mkdate y m d).

(** [date.fromordinal(n)] *)
Definition fromordinal (n : Z) : result date :=
  let '(y, m, d) := _ord2ymd n in new y m d.

(** [self.toordinal()] *)
Definition toordinal (self : date) : Z :=
  _ymd2ord (year self) (month self) (day self).

(** [self.weekday()]: Monday is 0 and Sunday is 6. *)
Definition weekday (self : date) : Z := (toordinal self + 6) mod 7.

(** [self.replace(day=d)] *)
Definition replace_day (self : date) (d : Z) : result date :=
  new (year self) (month self) d.

(** [self + timedelta(days=k)] *)
Definition add_days (self : date) (k : Z) : result date :=
  let o := toordinal self + k in
  if (0 <? o) && (o <=? _MAXORDINAL) then fromordinal o
  else Raise OverflowError.

(** [self - timedelta(days=k)], which the source computes as
    [self + timedelta(-k)]. *)
Definition sub_days (self : date) (k : Z) : result date := add_days self (- k).

(** The full month names of the C locale, which [strftime("%B")] prints. *)
Definition month_names : list string :=
  ["January"; "February"; "March"; "April"; "May"; "June"; "July";
   "August"; "September"; "October"; "November"; "December"]%string.

(** [self.strftime("%B")] *)
Definition strftime_B (self : date) : string :=
  nth (Z.to_nat (month self - 1)) month_names EmptyString.

End dt.

(** ** calendar *)

Module calendar.

Definition SUNDAY : Z := 6.
Definition February : Z := 2.

Definition mdays : list Z :=
  [0; 31; 28; 31; 30; 31; 30; 31; 31; 30; 31; 30; 31].

Definition isleap (year : Z) : bool :=
  (year mod 4 =? 0) && (negb (year mod 100 =? 0) || (year mod 400 =? 0)).

(** [weekday(year, month, day)]: years outside [MINYEAR .. MAXYEAR] are
    first moved into the 400-year cycle starting at 2000. *)
Definition weekday (year month day : Z) : result Z :=
  let year :=
    if negb ((dt.MINYEAR <=? year) && (year <=? dt.MAXYEAR))
    then 2000 + year mod 400 else year in
  d ← dt.new year month day;
  Ok (dt.weekday d).

Definition monthrange (year month : Z) : result (Z * Z) :=
  if negb ((1 <=? month) && (month <=? 12)) then
    Raise (IllegalMonthError month)
  else
    day1 ← weekday year month 1;
    let ndays :=
      getitem mdays month + Z.b2z ((month =? February) && isleap year) in
    Ok (day1, ndays).

(** A [Calendar] object stores [_firstweekday]; the [firstweekday]
    property reads it modulo 7. *)
Record Calendar : Type := mkCalendar { _firstweekday : Z }.

Definition firstweekday (self : Calendar) : Z := _firstweekday self mod 7.

(** [list(self.itermonthdays(year, month))]: the generator yields
    [repeat(0, days_before)], [range(1, ndays + 1)] and
    [repeat(0, days_after)]. *)
Definition itermonthdays (self : Calendar) (year month : Z)
    : result (list Z) :=
  '(day1, ndays) ← monthrange year month;
  let days_before := (day1 - firstweekday self) mod 7 in
  let days_after := (firstweekday self - day1 - ndays) mod 7 in
  Ok (replicate (Z.to_nat days_before) 0
      ++ seqZ 1 ndays
      ++ replicate (Z.to_nat days_after) 0).

(** [range(0, n, 7)] *)
Definition range_step7 (n : nat) : list nat :=
  (λ k, 7 * k)%nat <$> seq 0 ((n + 6) / 7)%nat.

(** [days[i:i+7]] for [0 <= i]. *)
Definition slice7 {A} (days : list A) (i : nat) : list A :=
  take 7 (drop i days).

(** [[days[i:i+7] for i in range(0, len(days), 7)]] *)
Definition monthdayscalendar (self : Calendar) (year month : Z)
    : result (list (list Z)) :=
  days ← itermonthdays self year month;
  Ok (slice7 days <$> range_step7 (length days)).

End calendar.

(** ** The builtin [int] on a [str] *)

(** A [str] is modelled by a [string] whose characters are the code points
    below 256.  [int] accepts optional surrounding whitespace, an optional
    sign, and decimal digits that single underscores may separate. *)
Module pyint.

Definition ord (c : ascii) : Z := Z.of_N (N_of_ascii c).

(** The characters that [int] skips around the number: the C [isspace]
    set for a code point below 127, and the Unicode whitespace U+0085 and
    U+00A0 above. *)
Definition is_space (c : ascii) : bool :=
  let n := ord c in
  ((9 <=? n) && (n <=? 13)) || (n =? 32) || (n =? 133) || (n =? 160).

Definition is_digit (c : ascii) : bool :=
  let n := ord c in (48 <=? n) && (n <=? 57).

Definition is_underscore (c : ascii) : bool := ord c =? 95.

Fixpoint skip_spaces (s : string) : string :=
  match s with
  | String c s' => if is_space c then skip_spaces s' else s
  | EmptyString => s
  end.

(** The scan over digits and underscores: [prev_us] tells whether the
    previous character was an underscore, [acc] is the value and [digits]
    the number of digits read so far.  Returns the value, the digit count
    and the unread rest; [None] for a doubled or trailing underscore. *)
Fixpoint scan_digits (prev_us : bool) (acc : Z) (digits : nat) (s : string)
    : option (Z * nat * string) :=
  match s with
  | String c s' =>
      if is_digit c then
        scan_digits false (10 * acc + (ord c - 48)) (S digits) s'
      else if is_underscore c then
        if prev_us then None else scan_digits true acc digits s'
      else if prev_us then None else Some (acc, digits, s)
  | EmptyString => if prev_us then None else Some (acc, digits, s)
  end.

Definition starts_with_underscore (s : string) : bool :=
  match s with String c _ => is_underscore c | EmptyString => false end.

(** [int(s)] in base 10.  [max_str_digits] is the interpreter's
    [sys.get_int_max_str_digits()]; 0 switches the limit off. *)
Definition int_of_str (max_str_digits : nat) (s : string) : result Z :=
  let s := skip_spaces s in
  let '(negative, s) :=
    match s with
    | String "+" s' => (false, s')
    | String "-" s' => (true, s')
    | _ => (false, s)
    end in
  if starts_with_underscore s then Raise ValueError
  else
    match scan_digits false 0 0 s with
    | None => Raise ValueError
    | Some (v, digits, rest) =>
        if (digits =? 0)%nat then Raise ValueError
        else if (0 <? max_str_digits)%nat && (max_str_digits <? digits)%nat
        then Raise ValueError
        else
          match skip_spaces rest with
          | EmptyString => Ok (if negative then - v else v)
          | String _ _ => Raise ValueError
          end
    end.

End pyint.

(** ** calendarapp/views.py *)

(** One cell of the calendar grid; [day = 0] marks a padding cell. *)
Record DayCell : Type := mkDayCell { day : Z; date : option dt.date }.

(** What [request.GET.get(key, default)] hands to [int]: a [str] of the
    query string, or the integer default. *)
Inductive pyval : Type :=
  | PyStr (s : string)
  | PyInt (z : Z).

(** [request.GET.get(key, default)]; [GET] maps a key of the query string
    to its (last) value. *)
Definition get (GET : gmap string string) (key : string) (default : Z)
    : pyval :=
  match GET !! key with
  | Some s => PyStr s
  | None => PyInt default
  end.

Section views.

(** The interpreter's limit on the digits of a string passed to [int]. *)
Variable max_str_digits : nat.

(** [int(v)] *)
Definition int (v : pyval) : result Z :=
  match v with
  | PyStr s => pyint.int_of_str max_str_digits s
  | PyInt z => Ok z
  end.

(** [today] is the value of [dt.date.today()]. *)
Definition _parse_year_month (today : dt.date) (GET : gmap string string)
    : result (Z * Z) :=
  try_except
    (year ← int (get GET "year" (dt.year today));
     month ← int (get GET "month" (dt.month today));
     if (month <? 1) || (month >? 12) then Raise ValueError
     else Ok (year, month))
    (λ e, is_TypeError e || is_ValueError e)
    (Ok (dt.year today, dt.month today)).

Definition _build_month_grid (year month : Z)
    : result (list (list DayCell)) :=
  let cal := calendar.mkCalendar calendar.SUNDAY in
  weeks ← calendar.monthdayscalendar cal year month;
  mapM (λ week,
    mapM (λ day_num,
      if day_num =? 0 then Ok (mkDayCell 0 None)
      else
        d ← dt.new year month day_num;
        Ok (mkDayCell day_num (Some d))) week) weeks.

(** The navigation targets that [month_view] computes from [first]:
    [(prev_year, prev_month, next_year, next_month)]. *)
Definition adjacentMonths (year month : Z) : result (Z * Z * Z * Z) :=
  first ← dt.new year month 1;
  prev_month ← (d ← dt.sub_days first 1; dt.replace_day d 1);
  next_month ← (d ← dt.replace_day first 28;
                d ← dt.add_days d 4;
                dt.replace_day d 1);
  Ok (dt.year prev_month, dt.month prev_month,
      dt.year next_month, dt.month next_month).

(** The context that [month_view] hands to [render]. *)
Record Context : Type := mkContext {
  ctx_year : Z;
  ctx_month : Z;
  ctx_month_name : string;
  ctx_weeks : list (list DayCell);
  ctx_prev_year : Z;
  ctx_prev_month : Z;
  ctx_next_year : Z;
  ctx_next_month : Z;
  ctx_today : dt.date
}.

(** [month_view] up to the call of [render].  [today] is what
    [dt.date.today()] returns inside [_parse_year_month], [today'] what it
    returns when the context is built. *)
Definition month_view (today today' : dt.date) (GET : gmap string string)
    : result Context :=
  '(year, month) ← _parse_year_month today GET;
  month_name ← dt.strftime_B <$> dt.new year month 1;
  '(prev_year, prev_month, next_year, next_month) ← adjacentMonths year month;
  weeks ← _build_month_grid year month;
  Ok (mkContext year month month_name weeks
        prev_year prev_month next_year next_month today').

End views.

(** ** Notions used in the statements *)

(** The tail of [_ord2ymd]: the month and the day of a date from the
    offset [n] of the date into its year and the year's [leapyear] flag. *)
Definition month_of_offset (leapyear : bool) (n : Z) : Z * Z :=
  let month := Z.shiftr (n + 50) 5 in
  let preceding :=
    getitem dt._DAYS_BEFORE_MONTH month + Z.b2z ((month >? 2) && leapyear) in
  let '(month, preceding) :=
    if preceding >? n then
      let month := month - 1 in
      (month,
       preceding
       - (getitem dt._DAYS_IN_MONTH month + Z.b2z ((month =? 2) && leapyear)))
    else (month, preceding) in
  (month, n - preceding + 1).

(** The exception that [date(year, month, day)] raises for a year outside
    [MINYEAR .. MAXYEAR], the month and the day being small:
    [ValueError] when the year is a C [int], else [OverflowError]. *)
Definition year_error (year : Z) : exn :=
  if (dt.INT_MIN <=? year) && (year <=? dt.INT_MAX) then ValueError
  else OverflowError.

(** The leap years of the proleptic Gregorian calendar, in the words of
    the specification: divisible by 4, except centuries unless divisible
    by 400. *)
Definition gregorian_leap (year : Z) : Prop :=
  (4 | year) ∧ (¬ (100 | year) ∨ (400 | year)).

(** The non-zero day numbers of a grid, read week by week, cell by cell. *)
Definition day_numbers (weeks : list (list DayCell)) : list Z :=
  filter (λ d, d ≠ 0) (day <$> concat weeks).

(** The invariant of a cell of the grid of [(year, month)]. *)
Definition cell_invariant (year month : Z) (c : DayCell) : Prop :=
  (is_Some (date c) ↔ day c ≠ 0) ∧
  ∀ d, date c = Some d →
       dt.day d = day c ∧ dt.month d = month ∧ dt.year d = year.

(** The weekday of a date counted from Sunday: Sunday is 0, Monday is 1,
    and so on to Saturday, which is 6. *)
Definition sunday_index (d : dt.date) : Z := (dt.weekday d + 1) mod 7.

(** The cell that [_build_month_grid year month] makes of a day number. *)
Definition cell_of (year month day_num : Z) : DayCell :=
  if day_num =? 0 then mkDayCell 0 None
  else mkDayCell day_num (Some (dt.mkdate year month day_num)).

Definition cells_of (year month : Z) (week : list Z) : list DayCell :=
  cell_of year month <$> week.

(** The number of padding cells before day 1 and the day numbers that
    [itermonthdays] yields for a Sunday-first calendar. *)
Definition days_before (year month : Z) : nat :=
  Z.to_nat (dt._ymd2ord year month 1 mod 7).

Definition days_after (year month : Z) : nat :=
  Z.to_nat ((- dt._ymd2ord year month 1
             - dt._days_in_month year month) mod 7).

Definition month_days (year month : Z) : list Z :=
  replicate (days_before year month) 0
  ++ seqZ 1 (dt._days_in_month year month)
  ++ replicate (days_after year month) 0.

(** The rows that the list comprehension of [monthdayscalendar] cuts out
    of [days]. *)
Definition weeks_of {A} (days : list A) : list (list A) :=
  calendar.slice7 days <$> calendar.range_step7 (length days).

(** The grid of a month: the cells of its days, week by week. *)
Definition month_grid (year month : Z) : list (list DayCell) :=
  cells_of year month <$> weeks_of (month_days year month).

(** The navigation targets in the words of the specification. *)
Definition previous_month (year month : Z) : Z * Z :=
  if month =? 1 then (year - 1, 12) else (year, month - 1).

Definition following_month (year month : Z) : Z * Z :=
  if month =? 12 then (year + 1, 1) else (year, month + 1).

(** * Properties *)

(** ** The error monad *)

Lemma mapM_ok {A B} (f : A → result B) (g : A → B) (l : list A) :
  Forall (λ x, f x = Ok (g x)) l → mapM f l = Ok (g <$> l).
Proof.
  induction 1 as [|x l Hx _ IH]; [reflexivity|].
  cbn. rewrite Hx. cbn. rewrite IH. reflexivity.
Qed.

Lemma mapM_raise {A B} (f : A → result B) (g : A → B) l1 x l2 e :
  Forall (λ x, f x = Ok (g x)) l1 → f x = Raise e →
  mapM f (l1 ++ x :: l2) = Raise e.
Proof.
  intros Hl Hx. induction Hl as [|y l1 Hy _ IH]; cbn.
  - rewrite Hx. reflexivity.
  - rewrite Hy. cbn. rewrite IH. reflexivity.
Qed.

(** ** Months and their lengths *)

Lemma month_cases (m : Z) :
  1 ≤ m ≤ 12 →
  m = 1 ∨ m = 2 ∨ m = 3 ∨ m = 4 ∨ m = 5 ∨ m = 6 ∨
  m = 7 ∨ m = 8 ∨ m = 9 ∨ m = 10 ∨ m = 11 ∨ m = 12.
Proof. lia. Qed.

Ltac month_split Hm :=
  destruct (month_cases _ Hm)
    as [->|[->|[->|[->|[->|[->|[->|[->|[->|[->|[->| ->]]]]]]]]]]].

(** Evaluates the table lookups and flags whose arguments are closed. *)
Ltac eval_tables :=
  repeat match goal with
  | |- context [getitem ?l ?i] =>
      let v := eval vm_compute in (getitem l i) in
      progress change (getitem l i) with v
  | H : context [getitem ?l ?i] |- _ =>
      let v := eval vm_compute in (getitem l i) in
      progress change (getitem l i) with v in H
  | |- context [Z.b2z ?b] =>
      let v := eval vm_compute in (Z.b2z b) in
      progress change (Z.b2z b) with v
  | H : context [Z.b2z ?b] |- _ =>
      let v := eval vm_compute in (Z.b2z b) in
      progress change (Z.b2z b) with v in H
  | |- context [if ?b then ?x else ?y] =>
      let v := eval vm_compute in b in
      match v with
      | true => change (if b then x else y) with x
      | false => change (if b then x else y) with y
      end
  | H : context [if ?b then ?x else ?y] |- _ =>
      let v := eval vm_compute in b in
      match v with
      | true => change (if b then x else y) with x in H
      | false => change (if b then x else y) with y in H
      end
  end.

Lemma is_leap_spec (y : Z) :
  dt._is_leap y = true ↔ y mod 4 = 0 ∧ (y mod 100 ≠ 0 ∨ y mod 400 = 0).
Proof.
  unfold dt._is_leap.
  rewrite andb_true_iff, orb_true_iff, negb_true_iff, !Z.eqb_eq, Z.eqb_neq.
  tauto.
Qed.

Lemma isleap_is_leap (y : Z) : calendar.isleap y = dt._is_leap y.
Proof. reflexivity. Qed.

Lemma is_leap_gregorian (y : Z) : dt._is_leap y = true ↔ gregorian_leap y.
Proof.
  rewrite is_leap_spec. unfold gregorian_leap.
  rewrite <- !Z.mod_divide by lia. tauto.
Qed.

Lemma days_in_month_bounds (y m : Z) :
  1 ≤ m ≤ 12 → 28 ≤ dt._days_in_month y m ≤ 31.
Proof.
  intros Hm. unfold dt._days_in_month.
  destruct (dt._is_leap y); month_split Hm; eval_tables; lia.
Qed.

Lemma monthrange_ndays (y m : Z) :
  1 ≤ m ≤ 12 →
  getitem calendar.mdays m
  + Z.b2z ((m =? calendar.February) && calendar.isleap y)
  = dt._days_in_month y m.
Proof.
  intros Hm. unfold dt._days_in_month. rewrite isleap_is_leap.
  destruct (dt._is_leap y); month_split Hm; reflexivity.
Qed.

Lemma february_length (y : Z) :
  dt._days_in_month y 2 = if dt._is_leap y then 29 else 28.
Proof. unfold dt._days_in_month. destruct (dt._is_leap y); reflexivity. Qed.

(** ** The date constructor *)

Lemma as_int_fits (z : Z) :
  -2147483648 ≤ z ≤ 2147483647 → dt.as_int z = Ok z.
Proof.
  intros Hz. unfold dt.as_int, dt.INT_MIN, dt.INT_MAX.
  replace ((- 2 ^ 31 <=? z) && (z <=? 2 ^ 31 - 1)) with true
    by (symmetry; apply andb_true_iff; lia).
  reflexivity.
Qed.

Lemma as_int_overflow (z : Z) :
  ¬ -2147483648 ≤ z ≤ 2147483647 → dt.as_int z = Raise OverflowError.
Proof.
  intros Hz. unfold dt.as_int, dt.INT_MIN, dt.INT_MAX.
  replace ((- 2 ^ 31 <=? z) && (z <=? 2 ^ 31 - 1)) with false
    by (symmetry; apply andb_false_iff; lia).
  reflexivity.
Qed.

Lemma as_int_cases (z : Z) :
  dt.as_int z = Ok z ∨ dt.as_int z = Raise OverflowError.
Proof.
  destruct (decide (-2147483648 ≤ z ≤ 2147483647));
    [left; by apply as_int_fits|right; by apply as_int_overflow].
Qed.

Lemma new_valid (y m d : Z) :
  1 ≤ y ≤ 9999 → 1 ≤ m ≤ 12 → 1 ≤ d ≤ dt._days_in_month y m →
  dt.new y m d = Ok (dt.mkdate y m d).
Proof.
  intros Hy Hm Hd. pose proof (days_in_month_bounds y m Hm) as Hdim.
  unfold dt.new. rewrite !as_int_fits by lia. cbn [mbind result_bind].
  unfold dt._check_date_fields, dt.MINYEAR, dt.MAXYEAR.
  replace ((1 <=? y) && (y <=? 9999)) with true by (symmetry; apply andb_true_iff; lia).
  replace ((1 <=? m) && (m <=? 12)) with true by (symmetry; apply andb_true_iff; lia).
  cbv zeta.
  replace ((1 <=? d) && (d <=? dt._days_in_month y m)) with true
    by (symmetry; apply andb_true_iff; lia).
  reflexivity.
Qed.

(** A year outside [MINYEAR .. MAXYEAR] with a month and a day that are
    C [int]s. *)
Lemma new_invalid_year (y m d : Z) :
  ¬ 1 ≤ y ≤ 9999 → -2147483648 ≤ m ≤ 2147483647 →
  -2147483648 ≤ d ≤ 2147483647 →
  dt.new y m d = Raise (year_error y).
Proof.
  intros Hy Hm Hd. unfold dt.new, year_error.
  destruct (decide (-2147483648 ≤ y ≤ 2147483647)) as [Hi|Hi].
  - rewrite !as_int_fits by lia. cbn [mbind result_bind].
    unfold dt._check_date_fields, dt.MINYEAR, dt.MAXYEAR, dt.INT_MIN,
      dt.INT_MAX.
    replace ((1 <=? y) && (y <=? 9999)) with false
      by (symmetry; apply andb_false_iff; lia).
    replace ((- 2 ^ 31 <=? y) && (y <=? 2 ^ 31 - 1)) with true
      by (symmetry; apply andb_true_iff; lia).
    reflexivity.
  - rewrite (as_int_overflow y) by done.
    unfold dt.INT_MIN, dt.INT_MAX.
    replace ((- 2 ^ 31 <=? y) && (y <=? 2 ^ 31 - 1)) with false
      by (symmetry; apply andb_false_iff; lia).
    reflexivity.
Qed.

(** Whatever is raised, nothing is constructed outside the ranges. *)
Lemma new_Ok_range (y m d : Z) (x : dt.date) :
  dt.new y m d = Ok x →
  1 ≤ y ≤ 9999 ∧ 1 ≤ m ≤ 12 ∧ 1 ≤ d ≤ dt._days_in_month y m ∧
  x = dt.mkdate y m d.
Proof.
  unfold dt.new.
  destruct (as_int_cases y) as [-> | ->]; [|discriminate].
  destruct (as_int_cases m) as [-> | ->]; [|discriminate].
  destruct (as_int_cases d) as [-> | ->]; [|discriminate].
  cbn [mbind result_bind].
  unfold dt._check_date_fields, dt.MINYEAR, dt.MAXYEAR.
  destruct (negb _) eqn:Hy; [discriminate|].
  destruct (negb ((1 <=? m) && _)) eqn:Hm; [discriminate|]. cbv zeta.
  destruct (negb ((1 <=? d) && _)) eqn:Hd; [discriminate|].
  apply negb_false_iff, andb_true_iff in Hy, Hm, Hd.
  intros [= <-]. repeat split; lia.
Qed.

Lemma new_fields (y m d : Z) (x : dt.date) :
  dt.new y m d = Ok x → x = dt.mkdate y m d.
Proof. by intros (_ & _ & _ & ->)%new_Ok_range. Qed.

(** The exceptions of the constructor on a year and a month that are not
    both in range, for a day in 1..31. *)
Lemma new_invalid_cases (y m d : Z) :
  ¬ (1 ≤ y ≤ 9999 ∧ 1 ≤ m ≤ 12) → 1 ≤ d ≤ 31 →
  dt.new y m d
  = Raise (if decide (-2147483648 ≤ y ≤ 2147483647 ∧
                      -2147483648 ≤ m ≤ 2147483647)
           then ValueError else OverflowError).
Proof.
  intros H Hd. unfold dt.new.
  destruct (decide (-2147483648 ≤ y ≤ 2147483647)) as [Hy|Hy];
    [|rewrite (as_int_overflow y) by done; case_decide; [tauto|done]].
  rewrite (as_int_fits y) by done. cbn [mbind result_bind].
  destruct (decide (-2147483648 ≤ m ≤ 2147483647)) as [Hm|Hm];
    [|rewrite (as_int_overflow m) by done; case_decide; [tauto|done]].
  rewrite (as_int_fits m), (as_int_fits d) by lia. cbn [mbind result_bind].
  case_decide; [|tauto].
  unfold dt._check_date_fields, dt.MINYEAR, dt.MAXYEAR.
  destruct (negb _) eqn:Hyr; [done|].
  replace ((1 <=? m) && (m <=? 12)) with false; [done|].
  symmetry. apply andb_false_iff.
  apply negb_false_iff, andb_true_iff in Hyr. lia.
Qed.

Lemma year_error_cases (y : Z) :
  (-2147483648 ≤ y ≤ 2147483647 ∧ year_error y = ValueError) ∨
  (¬ -2147483648 ≤ y ≤ 2147483647 ∧ year_error y = OverflowError).
Proof.
  unfold year_error, dt.INT_MIN, dt.INT_MAX.
  destruct (decide (-2147483648 ≤ y ≤ 2147483647)) as [H|H]; [left|right];
    (split; [done|]).
  - replace ((- 2 ^ 31 <=? y) && (y <=? 2 ^ 31 - 1)) with true
      by (symmetry; apply andb_true_iff; lia).
    reflexivity.
  - replace ((- 2 ^ 31 <=? y) && (y <=? 2 ^ 31 - 1)) with false
      by (symmetry; apply andb_false_iff; lia).
    reflexivity.
Qed.

(** ** Ordinals: [_ord2ymd] inverts [_ymd2ord] *)

(** [_ord2ymd] with its constants evaluated and its tail named. *)
Lemma ord2ymd_unfold (n : Z) :
  let n0 := n - 1 in
  let n400 := n0 / 146097 in
  let r1 := n0 mod 146097 in
  let n100 := r1 / 36524 in
  let r2 := r1 mod 36524 in
  let n4 := r2 / 1461 in
  let r3 := r2 mod 1461 in
  let n1 := r3 / 365 in
  let r4 := r3 mod 365 in
  let year := n400 * 400 + 1 + (n100 * 100 + n4 * 4 + n1) in
  dt._ord2ymd n =
    if (n1 =? 4) || (n100 =? 4) then (year - 1, 12, 31)
    else
      let '(m, d) :=
        month_of_offset ((n1 =? 3) && (negb (n4 =? 24) || (n100 =? 3))) r4 in
      (year, m, d).
Proof.
  cbv zeta. unfold dt._ord2ymd, month_of_offset.
  change dt._DI400Y with 146097. change dt._DI100Y with 36524.
  change dt._DI4Y with 1461. cbv zeta.
  destruct (_ || _); [reflexivity|].
  destruct (_ >? _); reflexivity.
Qed.

(** The month estimate [(n + 50) >> 5] is the month or one more, and the
    correction step finds the month and the day. *)
Lemma month_of_offset_spec (y m d : Z) :
  1 ≤ m ≤ 12 → 1 ≤ d ≤ dt._days_in_month y m →
  month_of_offset (dt._is_leap y) (dt._days_before_month y m + d - 1) = (m, d).
Proof.
  intros Hm Hd. unfold dt._days_in_month, dt._days_before_month in *.
  unfold month_of_offset. rewrite Z.shiftr_div_pow2 by lia.
  change (2 ^ 5) with 32.
  set (lp := dt._is_leap y) in *.
  set (n := _ + d - 1).
  assert (Hn : n = getitem dt._DAYS_BEFORE_MONTH m + Z.b2z ((m >? 2) && lp) + d - 1)
    by reflexivity.
  clearbody n.
  assert (Hk : (n + 50) / 32 = m ∨ (n + 50) / 32 = m + 1).
  { destruct lp; month_split Hm; eval_tables; Z.div_mod_to_equations; lia. }
  destruct Hk as [Hk | Hk]; rewrite Hk;
    destruct lp; month_split Hm; eval_tables;
    match goal with |- context [?a >? ?b] => destruct (Z.gtb_spec a b) end;
    try (f_equal; lia); exfalso; Z.div_mod_to_equations; lia.
Qed.

Lemma divmod_unique (x k q r : Z) :
  x = k * q + r → 0 ≤ r < k → x / k = q ∧ x mod k = r.
Proof.
  intros -> Hr. split.
  - symmetry. apply (Z.div_unique _ k q r); [lia | reflexivity].
  - symmetry. apply (Z.mod_unique _ k q r); [lia | reflexivity].
Qed.

(** The days before a year, by 400-year, 100-year, 4-year cycles and
    single years. *)
Lemma days_before_year_split (y : Z) :
  let Y := y - 1 in
  dt._days_before_year y =
    146097 * (Y / 400) + 36524 * (Y mod 400 / 100)
    + 1461 * (Y mod 100 / 4) + 365 * (Y mod 4).
Proof.
  unfold dt._days_before_year. cbv zeta. Z.div_mod_to_equations; lia.
Qed.

Lemma is_leap_cycles (y : Z) :
  let Y := y - 1 in
  dt._is_leap y = true ↔
  Y mod 4 = 3 ∧ (Y mod 100 / 4 ≠ 24 ∨ Y mod 400 / 100 = 3).
Proof. cbv zeta. rewrite is_leap_spec. Z.div_mod_to_equations; lia. Qed.

Lemma year_offset_bound (y m d : Z) :
  1 ≤ m ≤ 12 → 1 ≤ d ≤ dt._days_in_month y m →
  0 ≤ dt._days_before_month y m + d - 1 < 365 + Z.b2z (dt._is_leap y).
Proof.
  intros Hm Hd. unfold dt._days_in_month, dt._days_before_month in *.
  destruct (dt._is_leap y); month_split Hm; eval_tables; lia.
Qed.

(** The four [divmod] steps of [_ord2ymd] on the day number of a date in
    year [400 * a + 100 * b + 4 * c + e + 1] at offset [r] into the year;
    offset 365 is the 31st of December of a leap year. *)
Section cycles.
Variables a b c e r : Z.
Hypothesis Hb : 0 ≤ b < 4.
Hypothesis Hc : 0 ≤ c < 25.
Hypothesis He : 0 ≤ e < 4.
Hypothesis Hr : 0 ≤ r < 366.
Hypothesis Hleap : r = 365 → e = 3 ∧ (c ≠ 24 ∨ b = 3).

Lemma cycle400 :
  let n := 146097 * a + 36524 * b + 1461 * c + 365 * e + r in
  n / 146097 = a ∧ n mod 146097 = 36524 * b + 1461 * c + 365 * e + r.
Proof using All. apply divmod_unique; lia. Qed.

Lemma cycle100 :
  let n := 36524 * b + 1461 * c + 365 * e + r in
  if decide (b = 3 ∧ c = 24 ∧ r = 365) then n / 36524 = 4 ∧ n mod 36524 = 0
  else n / 36524 = b ∧ n mod 36524 = 1461 * c + 365 * e + r.
Proof using All. cbv zeta. case_decide; apply divmod_unique; lia. Qed.

Lemma cycle4 :
  let n := 1461 * c + 365 * e + r in
  n / 1461 = c ∧ n mod 1461 = 365 * e + r.
Proof using All. cbv zeta. apply divmod_unique; lia. Qed.

Lemma cycle1 :
  let n := 365 * e + r in
  if decide (r = 365) then n / 365 = 4 ∧ n mod 365 = 0
  else n / 365 = e ∧ n mod 365 = r.
Proof using All. cbv zeta. case_decide; apply divmod_unique; lia. Qed.
End cycles.

(** [_ord2ymd] inverts [_ymd2ord] on every date of the proleptic
    Gregorian calendar, whatever the year. *)
Lemma ord2ymd_ymd2ord (y m d : Z) :
  1 ≤ m ≤ 12 → 1 ≤ d ≤ dt._days_in_month y m →
  dt._ord2ymd (dt._ymd2ord y m d) = (y, m, d).
Proof.
  intros Hm Hd.
  pose proof (year_offset_bound y m d Hm Hd) as Hr.
  pose proof (month_of_offset_spec y m d Hm Hd) as Hmo.
  pose proof (is_leap_cycles y) as Hl. cbv zeta in Hl.
  rewrite ord2ymd_unfold. cbv zeta.
  unfold dt._ymd2ord. rewrite days_before_year_split. cbv zeta.
  set (r := dt._days_before_month y m + d - 1) in *.
  set (a := (y - 1) / 400) in *.
  set (b := (y - 1) mod 400 / 100) in *.
  set (c := (y - 1) mod 100 / 4) in *.
  set (e := (y - 1) mod 4) in *.
  replace (146097 * a + 36524 * b + 1461 * c + 365 * e
           + dt._days_before_month y m + d - 1)
    with (146097 * a + 36524 * b + 1461 * c + 365 * e + r) by (subst r; lia).
  assert (Hy : y = 400 * a + 100 * b + 4 * c + e + 1)
    by (subst a b c e; Z.div_mod_to_equations; lia).
  assert (Hb : 0 ≤ b < 4) by (subst b; Z.div_mod_to_equations; lia).
  assert (Hc : 0 ≤ c < 25) by (subst c; Z.div_mod_to_equations; lia).
  assert (He : 0 ≤ e < 4) by (subst e; Z.div_mod_to_equations; lia).
  clearbody a b c e r.
  assert (Hr' : 0 ≤ r < 366) by (destruct (dt._is_leap y); simpl in Hr; lia).
  assert (Hlr : r = 365 → e = 3 ∧ (c ≠ 24 ∨ b = 3)).
  { intros ->. apply Hl. destruct (dt._is_leap y); [done | simpl in Hr; lia]. }
  assert (Hdec : r = 365 → m = 12 ∧ d = 31).
  { intros ->. destruct (dt._is_leap y); [|simpl in Hr; lia].
    vm_compute in Hmo. by injection Hmo as <- <-. }
  pose proof (cycle400 a b c e r Hb Hc He Hr' Hlr) as E; cbv zeta in E.
  destruct E as [E1 E2]. rewrite E1, !E2. clear E1 E2.
  pose proof (cycle100 a b c e r Hb Hc He Hr' Hlr) as E. cbv zeta in E.
  case_decide as Hcase.
  - destruct E as [E1 E2]. rewrite !E1, !E2. clear E1 E2.
    destruct Hcase as (-> & -> & Hr365). destruct (Hdec Hr365) as [-> ->].
    rewrite orb_true_r. repeat f_equal. change (0 mod 1461) with 0.
    change (0 / 1461) with 0. change (0 / 365) with 0. lia.
  - destruct E as [E1 E2]. rewrite !E1, !E2. clear E1 E2.
    pose proof (cycle4 a b c e r Hb Hc He Hr' Hlr) as E; cbv zeta in E.
    destruct E as [E1 E2]. rewrite !E1, !E2. clear E1 E2.
    pose proof (cycle1 a b c e r Hb Hc He Hr' Hlr) as E. cbv zeta in E.
    case_decide as Hr365; destruct E as [E1 E2]; rewrite !E1, ?E2; clear E1 E2.
    + destruct (Hdec Hr365) as [-> ->]. simpl. repeat f_equal. lia.
    + replace ((e =? 4) || (b =? 4)) with false by (symmetry; apply orb_false_iff; lia).
      replace ((e =? 3) && (negb (c =? 24) || (b =? 3))) with (dt._is_leap y).
      * rewrite Hmo. repeat f_equal. lia.
      * apply eq_true_iff_eq. rewrite Hl, andb_true_iff, orb_true_iff, negb_true_iff.
        rewrite !Z.eqb_eq, Z.eqb_neq. tauto.
Qed.

(** ** Cutting a list of days into weeks *)

Section weeks_of.
Context {A : Type}.
Implicit Types (l w : list A) (i j k : nat).

Lemma weeks_of_length l : length (weeks_of l) = ((length l + 6) / 7)%nat.
Proof.
  unfold weeks_of, calendar.range_step7.
  by rewrite !length_fmap, length_seq.
Qed.

Lemma weeks_of_lookup l i w :
  weeks_of l !! i = Some w ↔
  (i < (length l + 6) / 7)%nat ∧ w = take 7 (drop (7 * i) l).
Proof.
  unfold weeks_of, calendar.range_step7, calendar.slice7.
  rewrite <- list_fmap_compose, list_lookup_fmap, fmap_Some. split.
  - intros (k & [-> Hk]%lookup_seq & ->). done.
  - intros [Hi ->]. exists i. split; [by apply lookup_seq|done].
Qed.

Lemma concat_slices l j k :
  concat ((λ i, take 7 (drop (7 * i) l)) <$> seq j k)
  = take (7 * k) (drop (7 * j) l).
Proof.
  revert j. induction k as [|k IH]; intros j; [by rewrite Nat.mul_0_r|].
  cbn [seq fmap list_fmap concat]. rewrite IH.
  replace (7 * S j)%nat with (7 * j + 7)%nat by lia.
  rewrite <- drop_drop, take_take_drop. f_equal. lia.
Qed.

Lemma weeks_of_concat l : concat (weeks_of l) = l.
Proof.
  unfold weeks_of, calendar.range_step7, calendar.slice7.
  rewrite <- list_fmap_compose.
  change (concat ((λ i, take 7 (drop (7 * i) l)) <$>
                  seq 0 ((length l + 6) / 7)) = l).
  rewrite concat_slices. cbn [Nat.mul drop]. apply take_ge.
  pose proof (Nat.div_mod_eq (length l + 6) 7).
  pose proof (Nat.mod_upper_bound (length l + 6) 7). lia.
Qed.

Lemma weeks_of_full l k :
  length l = (7 * k)%nat →
  length (weeks_of l) = k ∧ Forall (λ w, length w = 7%nat) (weeks_of l).
Proof.
  intros Hl.
  assert (Hk : ((length l + 6) / 7)%nat = k).
  { rewrite Hl. symmetry. apply (Nat.div_unique _ 7 k 6); lia. }
  split; [by rewrite weeks_of_length|].
  apply Forall_lookup. intros i w [Hi ->]%weeks_of_lookup.
  rewrite length_take, length_drop. lia.
Qed.

(** The cell in column [j] of week [i] is element [7 * i + j] of the
    list that was cut. *)
Lemma weeks_of_cell l i j w x :
  weeks_of l !! i = Some w →
  w !! j = Some x ↔ (j < 7)%nat ∧ l !! (7 * i + j)%nat = Some x.
Proof.
  intros [Hi ->]%weeks_of_lookup. split.
  - intros H. assert (j < 7)%nat as Hj.
    { apply lookup_lt_Some in H. rewrite length_take in H. lia. }
    by rewrite lookup_take_lt, lookup_drop in H.
  - intros [Hj H]. by rewrite lookup_take_lt, lookup_drop.
Qed.
End weeks_of.

(** ** The days of a month in a Sunday-first calendar *)

Lemma days_before_year_shift (y k : Z) :
  dt._days_before_year (y + 400 * k) = dt._days_before_year y + 146097 * k.
Proof. unfold dt._days_before_year. cbv zeta. Z.div_mod_to_equations; lia. Qed.

Lemma is_leap_shift (y k : Z) : dt._is_leap (y + 400 * k) = dt._is_leap y.
Proof.
  apply eq_true_iff_eq. rewrite !is_leap_spec. Z.div_mod_to_equations; lia.
Qed.

(** The year that [calendar.weekday] substitutes for a year outside
    [MINYEAR .. MAXYEAR] has the same weekdays. *)
Lemma ymd2ord_cycle (y m d : Z) :
  dt._ymd2ord (2000 + y mod 400) m d mod 7 = dt._ymd2ord y m d mod 7.
Proof.
  replace (2000 + y mod 400) with (y + 400 * (5 - y / 400))
    by (Z.div_mod_to_equations; lia).
  unfold dt._ymd2ord, dt._days_before_month.
  rewrite days_before_year_shift, is_leap_shift.
  Z.div_mod_to_equations; lia.
Qed.

Lemma calendar_weekday_first (y m : Z) :
  1 ≤ m ≤ 12 →
  calendar.weekday y m 1 = Ok ((dt._ymd2ord y m 1 + 6) mod 7).
Proof.
  intros Hm. pose proof (days_in_month_bounds y m Hm) as Hd.
  unfold calendar.weekday, dt.MINYEAR, dt.MAXYEAR.
  destruct (negb _) eqn:Hy.
  - pose proof (days_in_month_bounds (2000 + y mod 400) m Hm).
    rewrite new_valid by (try Z.div_mod_to_equations; lia).
    cbn. unfold dt.weekday, dt.toordinal. cbn. f_equal.
    pose proof (ymd2ord_cycle y m 1). Z.div_mod_to_equations; lia.
  - apply negb_false_iff, andb_true_iff in Hy.
    rewrite new_valid by lia. reflexivity.
Qed.

Lemma monthrange_valid (y m : Z) :
  1 ≤ m ≤ 12 →
  calendar.monthrange y m
  = Ok ((dt._ymd2ord y m 1 + 6) mod 7, dt._days_in_month y m).
Proof.
  intros Hm. unfold calendar.monthrange.
  replace ((1 <=? m) && (m <=? 12)) with true
    by (symmetry; apply andb_true_iff; lia).
  cbn [negb]. rewrite calendar_weekday_first by done.
  rewrite <- (monthrange_ndays y m) by done. reflexivity.
Qed.

Lemma itermonthdays_sunday (y m : Z) :
  1 ≤ m ≤ 12 →
  calendar.itermonthdays (calendar.mkCalendar calendar.SUNDAY) y m
  = Ok (month_days y m).
Proof.
  intros Hm. unfold calendar.itermonthdays.
  rewrite monthrange_valid by done.
  unfold month_days, days_before, days_after, calendar.firstweekday.
  cbv beta iota zeta delta [mbind result_bind calendar._firstweekday].
  change (calendar.SUNDAY mod 7) with 6.
  do 2 f_equal; [|do 2 f_equal]; f_equal; Z.div_mod_to_equations; lia.
Qed.

Lemma monthdayscalendar_sunday (y m : Z) :
  1 ≤ m ≤ 12 →
  calendar.monthdayscalendar (calendar.mkCalendar calendar.SUNDAY) y m
  = Ok (weeks_of (month_days y m)).
Proof.
  intros Hm. unfold calendar.monthdayscalendar.
  rewrite itermonthdays_sunday by done. reflexivity.
Qed.

Lemma monthdayscalendar_bad_month (cal : calendar.Calendar) (y m : Z) :
  ¬ 1 ≤ m ≤ 12 →
  calendar.monthdayscalendar cal y m = Raise (IllegalMonthError m).
Proof.
  intros Hm.
  unfold calendar.monthdayscalendar, calendar.itermonthdays,
    calendar.monthrange.
  replace ((1 <=? m) && (m <=? 12)) with false
    by (symmetry; apply andb_false_iff; lia).
  reflexivity.
Qed.

Lemma days_before_lt (y m : Z) : (days_before y m < 7)%nat.
Proof. unfold days_before. Z.div_mod_to_equations; lia. Qed.

Lemma days_after_lt (y m : Z) : (days_after y m < 7)%nat.
Proof. unfold days_after. Z.div_mod_to_equations; lia. Qed.

Lemma month_days_length (y m : Z) :
  1 ≤ m ≤ 12 →
  ∃ k : nat, (4 ≤ k ≤ 6)%nat ∧
    (days_before y m + Z.to_nat (dt._days_in_month y m) + days_after y m
     = 7 * k)%nat ∧
    length (month_days y m) = (7 * k)%nat.
Proof.
  intros Hm. pose proof (days_in_month_bounds y m Hm) as Hd.
  unfold month_days. rewrite !length_app, !length_replicate, length_seqZ.
  unfold days_before, days_after.
  set (o := dt._ymd2ord y m 1). set (n := dt._days_in_month y m) in *.
  exists (Z.to_nat ((o mod 7 + n + (- o - n) mod 7) / 7)).
  Z.div_mod_to_equations; lia.
Qed.

(** What stands at position [p] of the days of a month. *)
Lemma month_days_lookup (y m : Z) (p : nat) (v : Z) :
  1 ≤ m ≤ 12 →
  month_days y m !! p = Some v ↔
    (p < length (month_days y m))%nat ∧
    if decide (days_before y m ≤ p
               < days_before y m + Z.to_nat (dt._days_in_month y m))%nat
    then v = Z.of_nat p - Z.of_nat (days_before y m) + 1
    else v = 0.
Proof.
  intros Hm. pose proof (days_in_month_bounds y m Hm) as Hd.
  unfold month_days. rewrite !length_app, !length_replicate, length_seqZ.
  set (b := days_before y m). set (a := days_after y m).
  set (n := dt._days_in_month y m) in *.
  destruct (decide (p < b)%nat) as [Hp|Hp].
  { rewrite lookup_app_l by (rewrite length_replicate; lia).
    rewrite lookup_replicate. case_decide; [lia|]. intuition lia. }
  rewrite lookup_app_r by (rewrite length_replicate; lia).
  rewrite length_replicate.
  destruct (decide (p - b < Z.to_nat n)%nat) as [Hp'|Hp'].
  { rewrite lookup_app_l by (rewrite length_seqZ; lia).
    rewrite lookup_seqZ. case_decide; [|lia]. intuition lia. }
  rewrite lookup_app_r by (rewrite length_seqZ; lia).
  rewrite length_seqZ, lookup_replicate. case_decide; [lia|]. intuition lia.
Qed.

Lemma month_days_elem (y m d : Z) :
  d ∈ month_days y m → d = 0 ∨ 1 ≤ d ≤ dt._days_in_month y m.
Proof.
  unfold month_days. rewrite !elem_of_app, !elem_of_replicate, elem_of_seqZ.
  intros [[-> _]|[H|[-> _]]]; lia.
Qed.

Lemma filter_days_replicate (n : nat) :
  filter (λ d : Z, d ≠ 0) (replicate n 0) = [].
Proof.
  induction n as [|n IH]; [done|]. cbn [replicate].
  rewrite filter_cons_False by (intros H; by apply H). done.
Qed.

Lemma filter_days_all (l : list Z) :
  Forall (λ d, d ≠ 0) l → filter (λ d : Z, d ≠ 0) l = l.
Proof.
  induction 1 as [|d l Hd _ IH]; [done|].
  rewrite filter_cons_True by done. by rewrite IH.
Qed.

Lemma filter_days_seqZ (n : Z) :
  filter (λ d : Z, d ≠ 0) (seqZ 1 n) = seqZ 1 n.
Proof.
  apply filter_days_all, Forall_forall.
  intros d Hd%elem_of_seqZ. lia.
Qed.

Lemma month_days_filter (y m : Z) :
  filter (λ d : Z, d ≠ 0) (month_days y m) = seqZ 1 (dt._days_in_month y m).
Proof.
  unfold month_days.
  rewrite !filter_app, !filter_days_replicate, filter_days_seqZ.
  by rewrite app_nil_r.
Qed.

(** ** The grid *)

Lemma cell_of_day (y m d : Z) : day (cell_of y m d) = d.
Proof.
  unfold cell_of. destruct (Z.eqb_spec d 0) as [->|]; reflexivity.
Qed.

Lemma cell_of_date (y m d : Z) :
  date (cell_of y m d) = if decide (d = 0) then None
                         else Some (dt.mkdate y m d).
Proof.
  unfold cell_of. destruct (Z.eqb_spec d 0); case_decide; done.
Qed.

Lemma cell_of_invariant (y m d : Z) : cell_invariant y m (cell_of y m d).
Proof.
  unfold cell_invariant. rewrite cell_of_day, cell_of_date.
  case_decide as Hd; split.
  - split; [intros [? [=]]|done].
  - intros ? [=].
  - split; [done|eauto].
  - intros ? [= <-]. done.
Qed.

Lemma grid_cells (y m : Z) (weeks : list (list Z)) :
  concat (cells_of y m <$> weeks) = cell_of y m <$> concat weeks.
Proof.
  induction weeks as [|w weeks IH]; [done|].
  cbn [fmap list_fmap concat]. rewrite fmap_app. f_equal. apply IH.
Qed.

Lemma grid_days (y m : Z) (days : list Z) :
  day <$> (cell_of y m <$> days) = days.
Proof.
  rewrite <- list_fmap_compose. rewrite <- (list_fmap_id days) at 2.
  apply list_fmap_ext. intros _ d _. apply cell_of_day.
Qed.

(** On a valid year and month [_build_month_grid] returns the days of the
    month, cut into weeks, cell by cell. *)
Lemma build_month_grid_valid (y m : Z) :
  1 ≤ y ≤ 9999 → 1 ≤ m ≤ 12 →
  _build_month_grid y m = Ok (month_grid y m).
Proof.
  intros Hy Hm. unfold _build_month_grid.
  rewrite monthdayscalendar_sunday by done.
  change (Ok ?w ≫= ?f) with (f w). cbv beta.
  apply (mapM_ok _ (cells_of y m)), Forall_forall. intros w Hw.
  apply (mapM_ok _ (cell_of y m)), Forall_forall. intros d Hd.
  assert (d ∈ month_days y m) as Hin.
  { rewrite <- (weeks_of_concat (month_days y m)).
    apply list_elem_of_In, in_concat. exists w.
    split; by apply list_elem_of_In. }
  apply month_days_elem in Hin. unfold cell_of.
  destruct (Z.eqb_spec d 0); [done|].
  rewrite new_valid by lia. reflexivity.
Qed.

Lemma build_month_grid_bad_month (y m : Z) :
  ¬ 1 ≤ m ≤ 12 → _build_month_grid y m = Raise (IllegalMonthError m).
Proof.
  intros Hm. unfold _build_month_grid.
  by rewrite monthdayscalendar_bad_month.
Qed.

Lemma first_week (y m : Z) :
  1 ≤ m ≤ 12 →
  ∃ w rest, weeks_of (month_days y m)
            = (replicate (days_before y m) 0 ++ 1 :: w) :: rest.
Proof.
  intros Hm. destruct (month_days_length y m Hm) as (k & Hk & _ & Hlen).
  pose proof (days_in_month_bounds y m Hm) as Hd.
  pose proof (days_before_lt y m) as Hb.
  destruct (weeks_of (month_days y m)) as [|w0 rest] eqn:Hw.
  { apply (f_equal length) in Hw. rewrite weeks_of_length, Hlen in Hw.
    cbn [length] in Hw. assert (1 ≤ (7 * k + 6) / 7)%nat; [|lia].
    apply Nat.div_le_lower_bound; lia. }
  assert (weeks_of (month_days y m) !! 0%nat = Some w0) as Hw0 by by rewrite Hw.
  apply weeks_of_lookup in Hw0 as [_ ->].
  change (7 * 0)%nat with 0%nat. rewrite drop_0.
  unfold month_days. rewrite seqZ_cons by lia.
  rewrite take_app_ge by (rewrite length_replicate; lia).
  rewrite length_replicate.
  destruct (7 - days_before y m)%nat as [|j] eqn:Hj; [lia|].
  cbn [take app]. eauto.
Qed.

(** Outside [MINYEAR .. MAXYEAR] the construction of the date of day 1
    raises. *)
Lemma build_month_grid_bad_year (y m : Z) :
  ¬ 1 ≤ y ≤ 9999 → 1 ≤ m ≤ 12 →
  _build_month_grid y m = Raise (year_error y).
Proof.
  intros Hy Hm. unfold _build_month_grid.
  rewrite monthdayscalendar_sunday by done.
  change (Ok ?w ≫= ?f) with (f w). cbv beta.
  destruct (first_week y m Hm) as (w & rest & ->).
  apply (mapM_raise _ (cells_of y m) [] _ rest); [constructor|].
  apply (mapM_raise _ (cell_of y m)).
  - apply Forall_forall. intros d [-> _]%elem_of_replicate. reflexivity.
  - change (1 =? 0) with false. cbv iota. by rewrite new_invalid_year by lia.
Qed.

Lemma month_grid_day_numbers (y m : Z) :
  day_numbers (month_grid y m) = seqZ 1 (dt._days_in_month y m).
Proof.
  unfold day_numbers, month_grid.
  by rewrite grid_cells, weeks_of_concat, grid_days, month_days_filter.
Qed.

Lemma month_grid_weeks (y m : Z) :
  1 ≤ m ≤ 12 →
  (4 ≤ length (month_grid y m) ≤ 6)%nat ∧
  Forall (λ w, length w = 7%nat) (month_grid y m).
Proof.
  intros Hm. destruct (month_days_length y m Hm) as (k & Hk & _ & Hlen).
  destruct (weeks_of_full _ _ Hlen) as [Hn Hall].
  unfold month_grid. split; [by rewrite length_fmap, Hn|].
  apply Forall_fmap. eapply Forall_impl; [exact Hall|].
  intros w Hw. unfold cells_of. cbn. by rewrite length_fmap.
Qed.

(** C1.  For every year in 1..9999 and month in 1..12,
    [_build_month_grid] returns a grid whose non-zero day numbers, read
    week by week and cell by cell, are the list 1, 2, ..., daysInMonth:
    every day of the month occurs exactly once, in increasing order, and
    no other non-zero day number occurs. *)
Theorem build_month_grid_days (y m : Z) :
  1 ≤ y ≤ 9999 → 1 ≤ m ≤ 12 →
  ∃ weeks, _build_month_grid y m = Ok weeks ∧
           day_numbers weeks = seqZ 1 (dt._days_in_month y m).
Proof.
  intros Hy Hm. exists (month_grid y m).
  split; [by apply build_month_grid_valid|apply month_grid_day_numbers].
Qed.

Lemma build_month_grid_days_witness :
  1 ≤ 2024 ≤ 9999 ∧ 1 ≤ 2 ≤ 12 ∧
  ∃ weeks, _build_month_grid 2024 2 = Ok weeks ∧
           day_numbers weeks = seqZ 1 (dt._days_in_month 2024 2).
Proof.
  split; [lia|]. split; [lia|]. apply (build_month_grid_days 2024 2); lia.
Defined.

(** C2.  For every year in 1..9999 and month in 1..12, every week of the
    grid that [_build_month_grid] returns has exactly 7 cells. *)
Theorem build_month_grid_week_length (y m : Z) :
  1 ≤ y ≤ 9999 → 1 ≤ m ≤ 12 →
  ∃ weeks, _build_month_grid y m = Ok weeks ∧
           Forall (λ week, length week = 7%nat) weeks.
Proof.
  intros Hy Hm. exists (month_grid y m).
  split; [by apply build_month_grid_valid|by apply month_grid_weeks].
Qed.

Lemma build_month_grid_week_length_witness :
  1 ≤ 2023 ≤ 9999 ∧ 1 ≤ 10 ≤ 12 ∧
  ∃ weeks, _build_month_grid 2023 10 = Ok weeks ∧
           Forall (λ week, length week = 7%nat) weeks.
Proof.
  split; [lia|]. split; [lia|].
  apply (build_month_grid_week_length 2023 10); lia.
Defined.

(** C8.  For every year in 1..9999 and month in 1..12, the grid that
    [_build_month_grid] returns has between 4 and 6 weeks. *)
Theorem build_month_grid_week_count (y m : Z) :
  1 ≤ y ≤ 9999 → 1 ≤ m ≤ 12 →
  ∃ weeks, _build_month_grid y m = Ok weeks ∧ (4 ≤ length weeks ≤ 6)%nat.
Proof.
  intros Hy Hm. exists (month_grid y m).
  split; [by apply build_month_grid_valid|by apply month_grid_weeks].
Qed.

Lemma build_month_grid_week_count_witness :
  1 ≤ 2026 ≤ 9999 ∧ 1 ≤ 2 ≤ 12 ∧
  ∃ weeks, _build_month_grid 2026 2 = Ok weeks ∧ (4 ≤ length weeks ≤ 6)%nat.
Proof.
  split; [lia|]. split; [lia|].
  apply (build_month_grid_week_count 2026 2); lia.
Defined.

(** C3.  Every cell of the grid that [_build_month_grid year month]
    returns carries a date exactly when its day is not 0, and the date of
    a cell has the day of the cell and the month and year of the grid.
    The grid exists for every year in 1..9999 and month in 1..12 (and
    for no other input, see [build_month_grid_returns]). *)
Theorem build_month_grid_cell_invariant (y m : Z) :
  1 ≤ y ≤ 9999 → 1 ≤ m ≤ 12 →
  ∃ weeks, _build_month_grid y m = Ok weeks ∧
           Forall (Forall (cell_invariant y m)) weeks.
Proof.
  intros Hy Hm. exists (month_grid y m).
  split; [by apply build_month_grid_valid|].
  unfold month_grid, cells_of. apply Forall_fmap, Forall_forall. intros w _.
  cbn. apply Forall_fmap, Forall_forall. intros d _. apply cell_of_invariant.
Qed.

Lemma build_month_grid_cell_invariant_witness :
  1 ≤ 1999 ≤ 9999 ∧ 1 ≤ 12 ≤ 12 ∧
  ∃ weeks, _build_month_grid 1999 12 = Ok weeks ∧
           Forall (Forall (cell_invariant 1999 12)) weeks.
Proof.
  split; [lia|]. split; [lia|].
  apply (build_month_grid_cell_invariant 1999 12); lia.
Defined.

(** [_build_month_grid] returns a grid on the years 1..9999 and the
    months 1..12 and raises on every other input. *)
Lemma build_month_grid_returns (y m : Z) :
  (∃ weeks, _build_month_grid y m = Ok weeks) ↔ 1 ≤ y ≤ 9999 ∧ 1 ≤ m ≤ 12.
Proof.
  split.
  - intros [weeks H].
    destruct (decide (1 ≤ m ≤ 12)) as [Hm|Hm];
      [|by rewrite build_month_grid_bad_month in H].
    destruct (decide (1 ≤ y ≤ 9999)) as [Hy|Hy]; [done|].
    by rewrite build_month_grid_bad_year in H.
  - intros [Hy Hm]. eexists. by apply build_month_grid_valid.
Qed.

Lemma month_grid_has_day (y m d : Z) :
  (∃ c, c ∈ concat (month_grid y m) ∧ day c = d) ↔ d ∈ month_days y m.
Proof.
  unfold month_grid. rewrite grid_cells, weeks_of_concat. split.
  - intros (c & (v & -> & Hv)%list_elem_of_fmap & <-). by rewrite cell_of_day.
  - intros Hd. exists (cell_of y m d).
    split; [apply list_elem_of_fmap; eauto|apply cell_of_day].
Qed.

(** C6.  For every year in 1..9999 the grid of February has a cell with
    day 29 if and only if the year is a leap year of the proleptic
    Gregorian calendar (divisible by 4, except centuries unless divisible
    by 400).  For February 2024 the last day cell is 29 and the grid has 5
    weeks; for February 2023 the last day cell is 28. *)
Theorem build_month_grid_february (y : Z) :
  1 ≤ y ≤ 9999 →
  (∃ weeks, _build_month_grid y 2 = Ok weeks ∧
            ((∃ c, c ∈ concat weeks ∧ day c = 29) ↔ gregorian_leap y)) ∧
  (∃ weeks, _build_month_grid 2024 2 = Ok weeks ∧
            last (day_numbers weeks) = Some 29 ∧ length weeks = 5%nat) ∧
  (∃ weeks, _build_month_grid 2023 2 = Ok weeks ∧
            last (day_numbers weeks) = Some 28).
Proof.
  intros Hy. split; [|split].
  - exists (month_grid y 2). split; [by apply build_month_grid_valid|].
    rewrite month_grid_has_day, <- is_leap_gregorian.
    unfold month_days.
    rewrite !elem_of_app, !elem_of_replicate, elem_of_seqZ, february_length.
    destruct (dt._is_leap y); split; (done || lia).
  - exists (month_grid 2024 2). split; [by apply build_month_grid_valid|].
    split; reflexivity.
  - exists (month_grid 2023 2). split; [by apply build_month_grid_valid|].
    reflexivity.
Qed.

Lemma build_month_grid_february_witness :
  1 ≤ 2000 ≤ 9999 ∧
  ∃ weeks, _build_month_grid 2000 2 = Ok weeks ∧
           ((∃ c, c ∈ concat weeks ∧ day c = 29) ↔ gregorian_leap 2000).
Proof.
  split; [lia|]. apply (build_month_grid_february 2000). lia.
Defined.

Lemma month_grid_cell (y m : Z) (i j : nat) week c :
  month_grid y m !! i = Some week → week !! j = Some c →
  ∃ v, c = cell_of y m v ∧ (j < 7)%nat ∧
       month_days y m !! (7 * i + j)%nat = Some v.
Proof.
  unfold month_grid, cells_of. rewrite list_lookup_fmap, fmap_Some.
  intros (w & Hw & ->). rewrite list_lookup_fmap, fmap_Some.
  intros (v & Hv & ->). exists v. split; [done|].
  by apply (weeks_of_cell _ _ _ _ _ Hw).
Qed.

Lemma sunday_index_ordinal (d : dt.date) :
  sunday_index d = dt.toordinal d mod 7.
Proof.
  unfold sunday_index, dt.weekday. Z.div_mod_to_equations; lia.
Qed.

(** C10.  In the grid of a year in 1..9999 and a month in 1..12 the
    padding cells are exactly the first [before] cells of the first week
    and the last [after] cells of the last week, so that no other week has
    one; and the cell of day [d] stands in the column whose number is the
    weekday of [date(year, month, d)] counted from Sunday, so that column
    0 holds the Sundays. *)
Theorem build_month_grid_layout (y m : Z) :
  1 ≤ y ≤ 9999 → 1 ≤ m ≤ 12 →
  ∃ weeks (before after : nat),
    _build_month_grid y m = Ok weeks ∧
    (before < 7)%nat ∧ (after < 7)%nat ∧
    ∀ (i j : nat) week c,
      weeks !! i = Some week → week !! j = Some c →
      (day c = 0 ↔
         (i = 0%nat ∧ (j < before)%nat) ∨
         (i = (length weeks - 1)%nat ∧ (7 - after ≤ j)%nat)) ∧
      (day c ≠ 0 →
         ∃ d, date c = Some d ∧ dt.new y m (day c) = Ok d ∧
              Z.of_nat j = sunday_index d ∧
              (j = 0%nat ↔ dt.weekday d = calendar.SUNDAY)).
Proof.
  intros Hy Hm. exists (month_grid y m), (days_before y m), (days_after y m).
  split; [by apply build_month_grid_valid|].
  pose proof (days_before_lt y m) as Hb. pose proof (days_after_lt y m) as Ha.
  do 2 (split; [done|]). intros i j week c Hweek Hc.
  destruct (month_grid_cell _ _ _ _ _ _ Hweek Hc) as (v & -> & Hj & Hv).
  apply month_days_lookup in Hv as [Hp Hv]; [|done].
  destruct (month_days_length y m Hm) as (k & Hk & Hsum & Hlen).
  destruct (weeks_of_full _ _ Hlen) as [Hn _].
  pose proof (days_in_month_bounds y m Hm) as Hd.
  assert (length (month_grid y m) = k) as ->
    by (unfold month_grid; by rewrite length_fmap).
  rewrite cell_of_day, cell_of_date. rewrite Hlen in Hp.
  case_decide as Hin; subst v; (split; [lia|]).
  - intros _. case_decide; [lia|]. eexists. split; [done|].
    rewrite new_valid by lia. split; [done|].
    assert (Z.of_nat j
            = sunday_index
                (dt.mkdate y m
                   (Z.of_nat (7 * i + j) - Z.of_nat (days_before y m) + 1)))
      as Hcol.
    { rewrite sunday_index_ordinal. unfold dt.toordinal, dt._ymd2ord. cbn.
      unfold days_before, dt._ymd2ord in Hin |- *.
      Z.div_mod_to_equations; lia. }
    split; [done|]. unfold sunday_index, dt.weekday, calendar.SUNDAY in *.
    Z.div_mod_to_equations; lia.
  - done.
Qed.

Lemma build_month_grid_layout_witness :
  1 ≤ 2024 ≤ 9999 ∧ 1 ≤ 2 ≤ 12 ∧
  ∃ weeks (before after : nat),
    _build_month_grid 2024 2 = Ok weeks ∧
    (before < 7)%nat ∧ (after < 7)%nat ∧
    ∀ (i j : nat) week c,
      weeks !! i = Some week → week !! j = Some c →
      (day c = 0 ↔
         (i = 0%nat ∧ (j < before)%nat) ∨
         (i = (length weeks - 1)%nat ∧ (7 - after ≤ j)%nat)) ∧
      (day c ≠ 0 →
         ∃ d, date c = Some d ∧ dt.new 2024 2 (day c) = Ok d ∧
              Z.of_nat j = sunday_index d ∧
              (j = 0%nat ↔ dt.weekday d = calendar.SUNDAY)).
Proof.
  split; [lia|]. split; [lia|]. apply (build_month_grid_layout 2024 2); lia.
Defined.

(** ** Date arithmetic and the navigation targets *)

Lemma is_leap_cases (y : Z) :
  (dt._is_leap y = true ∧ y mod 4 = 0 ∧ (y mod 100 ≠ 0 ∨ y mod 400 = 0)) ∨
  (dt._is_leap y = false ∧ ¬ (y mod 4 = 0 ∧ (y mod 100 ≠ 0 ∨ y mod 400 = 0))).
Proof.
  pose proof (is_leap_spec y) as H.
  destruct (dt._is_leap y); [left|right]; (split; [done|]).
  - by apply H.
  - intros H'. by apply H in H'.
Qed.

Lemma ymd2ord_bounds (y m d : Z) :
  1 ≤ y ≤ 9999 → 1 ≤ m ≤ 12 → 1 ≤ d ≤ dt._days_in_month y m →
  0 < dt._ymd2ord y m d ≤ dt._MAXORDINAL.
Proof.
  intros Hy Hm Hd. pose proof (year_offset_bound y m d Hm Hd) as Hr.
  unfold dt._ymd2ord, dt._MAXORDINAL, dt._days_before_year. cbv zeta.
  destruct (is_leap_cases y) as [[Hl H]|[Hl H]]; rewrite Hl in Hr;
    cbn [Z.b2z] in Hr; Z.div_mod_to_equations; lia.
Qed.

Lemma fromordinal_ymd2ord (y m d : Z) :
  1 ≤ y ≤ 9999 → 1 ≤ m ≤ 12 → 1 ≤ d ≤ dt._days_in_month y m →
  dt.fromordinal (dt._ymd2ord y m d) = Ok (dt.mkdate y m d).
Proof.
  intros Hy Hm Hd. unfold dt.fromordinal.
  rewrite ord2ymd_ymd2ord by done. by apply new_valid.
Qed.

(** The day before the first of a month is the last day of the previous
    month. *)
Lemma ymd2ord_previous (y m : Z) :
  1 ≤ m ≤ 12 →
  dt._ymd2ord y m 1 - 1
  = dt._ymd2ord (previous_month y m).1 (previous_month y m).2
      (dt._days_in_month (previous_month y m).1 (previous_month y m).2).
Proof.
  intros Hm. unfold previous_month.
  destruct (Z.eqb_spec m 1) as [->|Hm1]; cbn [fst snd].
  - unfold dt._ymd2ord, dt._days_before_month, dt._days_in_month.
    unfold dt._days_before_year. cbv zeta.
    destruct (is_leap_cases (y - 1)) as [[-> H]|[-> H]]; eval_tables;
      Z.div_mod_to_equations; lia.
  - unfold dt._ymd2ord, dt._days_before_month, dt._days_in_month.
    destruct (dt._is_leap y); month_split Hm; try done; eval_tables; lia.
Qed.

(** Four days after the 28th of a month comes a day of the following
    month. *)
Lemma ymd2ord_following (y m : Z) :
  1 ≤ m ≤ 12 →
  dt._ymd2ord y m 28 + 4
  = dt._ymd2ord (following_month y m).1 (following_month y m).2
      (32 - dt._days_in_month y m).
Proof.
  intros Hm. unfold following_month.
  destruct (Z.eqb_spec m 12) as [->|Hm12]; cbn [fst snd].
  - unfold dt._ymd2ord, dt._days_before_month, dt._days_in_month.
    unfold dt._days_before_year. cbv zeta.
    destruct (is_leap_cases y) as [[-> H]|[-> H]],
             (is_leap_cases (y + 1)) as [[-> H']|[-> H']]; eval_tables;
      Z.div_mod_to_equations; lia.
  - unfold dt._ymd2ord, dt._days_before_month, dt._days_in_month.
    destruct (dt._is_leap y); month_split Hm; try done; eval_tables; lia.
Qed.

Lemma previous_month_valid (y m : Z) :
  1 ≤ y ≤ 9999 → 1 ≤ m ≤ 12 → (y, m) ≠ (1, 1) →
  1 ≤ (previous_month y m).1 ≤ 9999 ∧ 1 ≤ (previous_month y m).2 ≤ 12.
Proof.
  intros Hy Hm Hne. unfold previous_month.
  destruct (Z.eqb_spec m 1) as [->|]; cbn [fst snd]; [|lia].
  assert (y ≠ 1) by congruence. lia.
Qed.

Lemma following_month_valid (y m : Z) :
  1 ≤ y ≤ 9999 → 1 ≤ m ≤ 12 → (y, m) ≠ (9999, 12) →
  1 ≤ (following_month y m).1 ≤ 9999 ∧ 1 ≤ (following_month y m).2 ≤ 12.
Proof.
  intros Hy Hm Hne. unfold following_month.
  destruct (Z.eqb_spec m 12) as [->|]; cbn [fst snd]; [|lia].
  assert (y ≠ 9999) by congruence. lia.
Qed.

Lemma sub_days_first (y m : Z) :
  1 ≤ y ≤ 9999 → 1 ≤ m ≤ 12 → (y, m) ≠ (1, 1) →
  dt.sub_days (dt.mkdate y m 1) 1
  = Ok (dt.mkdate (previous_month y m).1 (previous_month y m).2
          (dt._days_in_month (previous_month y m).1 (previous_month y m).2)).
Proof.
  intros Hy Hm Hne.
  destruct (previous_month_valid y m Hy Hm Hne) as [Hpy Hpm].
  pose proof (days_in_month_bounds (previous_month y m).1 _ Hpm) as Hd.
  unfold dt.sub_days, dt.add_days, dt.toordinal. cbn [dt.year dt.month dt.day].
  cbv zeta. replace (dt._ymd2ord y m 1 + Z.opp 1) with (dt._ymd2ord y m 1 - 1) by lia.
  rewrite ymd2ord_previous by done.
  set (py := (previous_month y m).1) in *. set (pm := (previous_month y m).2) in *.
  pose proof (ymd2ord_bounds py pm (dt._days_in_month py pm)) as Hb.
  replace ((0 <? _) && (_ <=? _)) with true
    by (symmetry; apply andb_true_iff; lia).
  apply fromordinal_ymd2ord; lia.
Qed.

Lemma add_days_28th (y m : Z) :
  1 ≤ y ≤ 9999 → 1 ≤ m ≤ 12 → (y, m) ≠ (9999, 12) →
  dt.add_days (dt.mkdate y m 28) 4
  = Ok (dt.mkdate (following_month y m).1 (following_month y m).2
          (32 - dt._days_in_month y m)).
Proof.
  intros Hy Hm Hne.
  destruct (following_month_valid y m Hy Hm Hne) as [Hny Hnm].
  pose proof (days_in_month_bounds y m Hm) as Hd.
  pose proof (days_in_month_bounds (following_month y m).1 _ Hnm) as Hd'.
  unfold dt.add_days, dt.toordinal. cbn [dt.year dt.month dt.day]. cbv zeta.
  rewrite ymd2ord_following by done.
  set (ny := (following_month y m).1) in *.
  set (nm := (following_month y m).2) in *.
  pose proof (ymd2ord_bounds ny nm (32 - dt._days_in_month y m)) as Hb.
  replace ((0 <? _) && (_ <=? _)) with true
    by (symmetry; apply andb_true_iff; lia).
  apply fromordinal_ymd2ord; lia.
Qed.

Lemma bind_Ok {A B} (a : A) (f : A → result B) : Ok a ≫= f = f a.
Proof. reflexivity. Qed.

Lemma adjacentMonths_inside (y m : Z) :
  1 ≤ y ≤ 9999 → 1 ≤ m ≤ 12 → (y, m) ≠ (1, 1) → (y, m) ≠ (9999, 12) →
  adjacentMonths y m
  = Ok ((previous_month y m).1, (previous_month y m).2,
        (following_month y m).1, (following_month y m).2).
Proof.
  intros Hy Hm Hlo Hhi.
  destruct (previous_month_valid y m Hy Hm Hlo) as [Hpy Hpm].
  destruct (following_month_valid y m Hy Hm Hhi) as [Hny Hnm].
  pose proof (days_in_month_bounds y m Hm) as Hd.
  pose proof (days_in_month_bounds (previous_month y m).1 _ Hpm) as Hdp.
  pose proof (days_in_month_bounds (following_month y m).1 _ Hnm) as Hdn.
  unfold adjacentMonths.
  rewrite new_valid, bind_Ok by lia.
  rewrite sub_days_first, bind_Ok by done.
  unfold dt.replace_day. cbn [dt.year dt.month dt.day].
  rewrite (new_valid (previous_month y m).1 _ 1), bind_Ok by lia.
  rewrite (new_valid y m 28), bind_Ok by lia.
  rewrite add_days_28th, bind_Ok by done. cbn [dt.year dt.month dt.day].
  rewrite (new_valid (following_month y m).1 _ 1), bind_Ok by lia.
  reflexivity.
Qed.

(** C5, amended.  For every year in 1..9999 and month in 1..12 other than
    January of year 1 and December of year 9999, [adjacentMonths] returns
    the month before (December of the year before for January, else the
    month before in the same year) and the month after (January of the
    year after for December, else the month after in the same year); so
    [adjacentMonths 2024 1] is [(2023, 12, 2024, 2)] and
    [adjacentMonths 2024 12] is [(2024, 11, 2025, 1)]. *)
Theorem adjacentMonths_spec (y m : Z) :
  1 ≤ y ≤ 9999 → 1 ≤ m ≤ 12 → (y, m) ≠ (1, 1) → (y, m) ≠ (9999, 12) →
  adjacentMonths y m
  = Ok (if m =? 1 then y - 1 else y, if m =? 1 then 12 else m - 1,
        if m =? 12 then y + 1 else y, if m =? 12 then 1 else m + 1)
  ∧ adjacentMonths 2024 1 = Ok (2023, 12, 2024, 2)
  ∧ adjacentMonths 2024 12 = Ok (2024, 11, 2025, 1).
Proof.
  intros Hy Hm Hlo Hhi. split; [|split].
  - rewrite adjacentMonths_inside by done.
    unfold previous_month, following_month.
    by destruct (m =? 1), (m =? 12).
  - by rewrite adjacentMonths_inside.
  - by rewrite adjacentMonths_inside.
Qed.

Lemma adjacentMonths_spec_witness :
  1 ≤ 2024 ≤ 9999 ∧ 1 ≤ 12 ≤ 12 ∧ (2024, 12) ≠ (1, 1) ∧
  (2024, 12) ≠ (9999, 12) ∧
  adjacentMonths 2024 12 = Ok (2024, 11, 2025, 1).
Proof.
  assert ((2024, 12) ≠ (1, 1)) as Hlo by discriminate.
  assert ((2024, 12) ≠ (9999, 12)) as Hhi by discriminate.
  split; [lia|]. split; [lia|]. split; [exact Hlo|]. split; [exact Hhi|].
  apply (adjacentMonths_spec 2024 12); [lia|lia|exact Hlo|exact Hhi].
Defined.

(** C5 as stated fails: for year 1 and month 1 the claim gives the
    previous month [(0, 12)] and the next month [(1, 2)], while the date
    subtraction raises [OverflowError]. *)
Lemma adjacentMonths_january_year_1 :
  1 ≤ 1 ≤ 12 ∧
  adjacentMonths 1 1 = Raise OverflowError ∧
  adjacentMonths 1 1 ≠ Ok (1 - 1, 12, 1, 1 + 1).
Proof. split; [lia|]. split; [reflexivity|discriminate]. Qed.

(** ** Reading the year and the month of the request *)

Section parse.
Variable limit : nat.
Implicit Types (today : dt.date) (GET : gmap string string).

(** [int] on a [str] returns or raises [ValueError]. *)
Lemma int_of_str_cases (s : string) :
  (∃ z, pyint.int_of_str limit s = Ok z) ∨
  pyint.int_of_str limit s = Raise ValueError.
Proof.
  unfold pyint.int_of_str.
  repeat match goal with
  | |- context [let '(_, _) := ?x in _] => destruct x
  | |- context [match ?x with _ => _ end] => destruct x
  end; eauto.
Qed.

Lemma int_cases (v : pyval) :
  (∃ z, int limit v = Ok z) ∨ int limit v = Raise ValueError.
Proof. destruct v; [apply int_of_str_cases|left; by eexists]. Qed.

Lemma parse_year_month_accepts today GET (y m : Z) :
  int limit (get GET "year" (dt.year today)) = Ok y →
  int limit (get GET "month" (dt.month today)) = Ok m →
  1 ≤ m ≤ 12 →
  _parse_year_month limit today GET = Ok (y, m).
Proof.
  intros Hy Hm Hr. unfold _parse_year_month. rewrite Hy, bind_Ok, Hm, bind_Ok.
  replace ((m <? 1) || (m >? 12)) with false
    by (symmetry; apply orb_false_iff; lia).
  reflexivity.
Qed.

Lemma parse_year_month_rejects today GET :
  int limit (get GET "year" (dt.year today)) = Raise ValueError ∨
  int limit (get GET "month" (dt.month today)) = Raise ValueError ∨
  (∃ m, int limit (get GET "month" (dt.month today)) = Ok m ∧
        ¬ 1 ≤ m ≤ 12) →
  _parse_year_month limit today GET = Ok (dt.year today, dt.month today).
Proof.
  intros H. unfold _parse_year_month.
  destruct H as [Hy|H]; [by rewrite Hy|].
  destruct (int_cases (get GET "year" (dt.year today))) as [[y Hy]|Hy];
    [|by rewrite Hy].
  rewrite Hy, bind_Ok. destruct H as [Hm|(m & Hm & Hr)]; [by rewrite Hm|].
  rewrite Hm, bind_Ok.
  replace ((m <? 1) || (m >? 12)) with true
    by (symmetry; apply orb_true_iff; lia).
  reflexivity.
Qed.

(** [_parse_year_month] never raises, and the month that it returns is
    in 1..12. *)
Lemma parse_year_month_total today GET :
  1 ≤ dt.month today ≤ 12 →
  ∃ y m, _parse_year_month limit today GET = Ok (y, m) ∧ 1 ≤ m ≤ 12.
Proof.
  intros Ht.
  destruct (int_cases (get GET "year" (dt.year today))) as [[y Hy]|Hy];
    [|eexists _, _; split; [apply parse_year_month_rejects; eauto|done]].
  destruct (int_cases (get GET "month" (dt.month today))) as [[m Hm]|Hm];
    [|eexists _, _; split; [apply parse_year_month_rejects; eauto|done]].
  destruct (decide (1 ≤ m ≤ 12)) as [Hr|Hr].
  - exists y, m. split; [by apply parse_year_month_accepts|done].
  - eexists _, _. split; [apply parse_year_month_rejects; eauto|done].
Qed.

Lemma int_of_str_13 :
  pyint.int_of_str limit "13" = Ok 13 ∨
  pyint.int_of_str limit "13" = Raise ValueError.
Proof.
  destruct limit as [|[|[|n]]]; vm_compute; auto.
Qed.
End parse.

(** C4, amended.  [_parse_year_month] returns today's year and today's
    month, both, whenever a supplied year or month is not numeric or the
    month lies outside 1..12; so it does for the month ["13"].  A missing
    input is replaced on its own: without a year and with a month that
    reads as [mo] in 1..12 it returns today's year and [mo], without a
    month and with a year that reads as [y] it returns [y] and today's
    month, and without both it returns today's year and month. *)
Theorem parse_year_month_fallback (limit : nat) (today : dt.date)
    (GET : gmap string string) :
  1 ≤ dt.month today ≤ 12 →
  ((∃ s, GET !! "year" = Some s ∧
         pyint.int_of_str limit s = Raise ValueError) ∨
   (∃ s, GET !! "month" = Some s ∧
         (pyint.int_of_str limit s = Raise ValueError ∨
          ∃ mo, pyint.int_of_str limit s = Ok mo ∧ ¬ 1 ≤ mo ≤ 12)) →
   _parse_year_month limit today GET = Ok (dt.year today, dt.month today)) ∧
  (GET !! "month" = Some "13" →
   _parse_year_month limit today GET = Ok (dt.year today, dt.month today)) ∧
  (GET !! "year" = None →
   ∀ s mo, GET !! "month" = Some s → pyint.int_of_str limit s = Ok mo →
           1 ≤ mo ≤ 12 →
           _parse_year_month limit today GET = Ok (dt.year today, mo)) ∧
  (GET !! "month" = None →
   ∀ s y, GET !! "year" = Some s → pyint.int_of_str limit s = Ok y →
          _parse_year_month limit today GET = Ok (y, dt.month today)) ∧
  (GET !! "year" = None → GET !! "month" = None →
   _parse_year_month limit today GET = Ok (dt.year today, dt.month today)).
Proof.
  intros Ht. repeat split.
  - intros [(s & Hs & He)|(s & Hs & He)]; apply parse_year_month_rejects;
      unfold get; rewrite Hs; cbn [int]; tauto.
  - intros Hs. apply parse_year_month_rejects. unfold get. rewrite Hs.
    cbn [int]. right. destruct (int_of_str_13 limit) as [H|H]; [right|by left].
    exists 13. split; [done|lia].
  - intros Hy s mo Hs Hmo Hr. apply parse_year_month_accepts; [| |done];
      unfold get; by rewrite ?Hy, ?Hs.
  - intros Hm s y Hs Hy. apply parse_year_month_accepts; [| |done];
      unfold get; by rewrite ?Hm, ?Hs.
  - intros Hy Hm. apply parse_year_month_accepts; [| |done];
      unfold get; by rewrite ?Hy, ?Hm.
Qed.

Lemma parse_year_month_fallback_witness :
  1 ≤ dt.month (dt.mkdate 2026 11 4) ≤ 12 ∧
  _parse_year_month 4300 (dt.mkdate 2026 11 4)
    {["year" := "2020"; "month" := "13"]}
  = Ok (2026, 11).
Proof.
  assert (1 ≤ dt.month (dt.mkdate 2026 11 4) ≤ 12) as Ht by (cbn; lia).
  split; [exact Ht|].
  destruct (parse_year_month_fallback 4300 (dt.mkdate 2026 11 4)
              {["year" := "2020"; "month" := "13"]} Ht) as (_ & H13 & _).
  apply H13. reflexivity.
Defined.

(** C4 as stated fails: without a year and with the valid month ["5"]
    the result keeps the month 5 instead of today's month. *)
Lemma parse_year_month_missing_year :
  let today := dt.mkdate 2026 11 4 in
  let GET : gmap string string := {["month" := "5"]} in
  GET !! "year" = None ∧
  pyint.int_of_str 4300 "5" = Ok 5 ∧
  _parse_year_month 4300 today GET = Ok (2026, 5) ∧
  _parse_year_month 4300 today GET ≠ Ok (dt.year today, dt.month today).
Proof. cbv zeta. repeat split; try reflexivity. discriminate. Qed.

Lemma month_view_bad_year (limit : nat) (today today' : dt.date)
    (GET : gmap string string) (y m : Z) :
  _parse_year_month limit today GET = Ok (y, m) → ¬ 1 ≤ y ≤ 9999 →
  1 ≤ m ≤ 12 →
  month_view limit today today' GET = Raise (year_error y).
Proof.
  intros Hp Hy Hm. unfold month_view. rewrite Hp, bind_Ok.
  by rewrite new_invalid_year by lia.
Qed.

Lemma parse_year_month_reads (limit : nat) (today : dt.date)
    (GET : gmap string string) (ys ms : string) (y m : Z) :
  GET !! "year" = Some ys → GET !! "month" = Some ms →
  pyint.int_of_str limit ys = Ok y → pyint.int_of_str limit ms = Ok m →
  1 ≤ m ≤ 12 →
  _parse_year_month limit today GET = Ok (y, m).
Proof.
  intros Hys Hms Hy Hm Hr.
  apply parse_year_month_accepts; [| |done]; unfold get;
    by rewrite ?Hys, ?Hms.
Qed.

(** C9.  [_parse_year_month] does not check the range of the year: when
    the year of the request reads as the integer [y] and the month reads
    as an integer in 1..12, it returns [y] as it is.  For a [y] outside
    1..9999 (0, a negative year, a year above 9999) the construction of
    the dates is not defined: [_build_month_grid] and [month_view] then
    raise. *)
Theorem parse_year_month_year_unchecked (limit : nat) (today : dt.date)
    (GET : gmap string string) (ys ms : string) (y m : Z) :
  GET !! "year" = Some ys → GET !! "month" = Some ms →
  pyint.int_of_str limit ys = Ok y → pyint.int_of_str limit ms = Ok m →
  1 ≤ m ≤ 12 →
  _parse_year_month limit today GET = Ok (y, m) ∧
  (¬ 1 ≤ y ≤ 9999 →
   (∃ e, _build_month_grid y m = Raise e) ∧
   ∀ today', ∃ e, month_view limit today today' GET = Raise e).
Proof.
  intros Hys Hms Hy Hm Hr.
  pose proof (parse_year_month_reads limit today GET ys ms y m
                Hys Hms Hy Hm Hr) as Hp.
  split; [done|]. intros Hbad. split.
  - eexists. by apply build_month_grid_bad_year.
  - intros today'. eexists. by apply (month_view_bad_year _ _ _ _ y m).
Qed.

Lemma parse_year_month_year_unchecked_witness :
  let GET : gmap string string := {["year" := "0"; "month" := "1"]} in
  GET !! "year" = Some "0" ∧ GET !! "month" = Some "1" ∧
  pyint.int_of_str 4300 "0" = Ok 0 ∧ pyint.int_of_str 4300 "1" = Ok 1 ∧
  1 ≤ 1 ≤ 12 ∧
  _parse_year_month 4300 (dt.mkdate 2026 11 4) GET = Ok (0, 1) ∧
  (¬ 1 ≤ 0 ≤ 9999 →
   (∃ e, _build_month_grid 0 1 = Raise e) ∧
   ∀ today', ∃ e, month_view 4300 (dt.mkdate 2026 11 4) today' GET
                  = Raise e).
Proof.
  cbv zeta. do 4 (split; [reflexivity|]). split; [lia|].
  apply (parse_year_month_year_unchecked 4300 (dt.mkdate 2026 11 4)
           {["year" := "0"; "month" := "1"]} "0" "1" 0 1);
    [reflexivity|reflexivity|reflexivity|reflexivity|lia].
Defined.

(** Years that [_parse_year_month] lets through: a negative year and a
    year above 9999. *)
Example parse_year_month_negative_year :
  _parse_year_month 4300 (dt.mkdate 2026 11 4)
    {["year" := "-5"; "month" := "7"]} = Ok (-5, 7).
Proof. reflexivity. Qed.

Example parse_year_month_large_year :
  _parse_year_month 4300 (dt.mkdate 2026 11 4)
    {["year" := "10000"; "month" := "12"]} = Ok (10000, 12).
Proof. reflexivity. Qed.

Lemma int_of_str_one_digit (limit : nat) :
  pyint.int_of_str limit "0" = Ok 0 ∧ pyint.int_of_str limit "1" = Ok 1.
Proof. destruct limit as [|[|n]]; split; reflexivity. Qed.

(** C7.  The claim that no operation ever raises fails on the request
    [?year=0&month=1]: [_parse_year_month] returns the year 0, which it
    does not check, and [month_view] raises [ValueError] when it builds
    [dt.date(0, 1, 1)]. *)
Theorem month_view_year_0_raises (limit : nat) (today today' : dt.date) :
  let GET : gmap string string := {["year" := "0"; "month" := "1"]} in
  _parse_year_month limit today GET = Ok (0, 1) ∧
  month_view limit today today' GET = Raise ValueError ∧
  _build_month_grid 0 1 = Raise ValueError.
Proof.
  cbv zeta. destruct (int_of_str_one_digit limit) as [H0 H1].
  assert (_parse_year_month limit today {["year" := "0"; "month" := "1"]}
          = Ok (0, 1)) as Hp.
  { apply (parse_year_month_reads _ _ _ "0" "1"); (done || lia). }
  split; [done|]. split.
  - apply (month_view_bad_year _ _ _ _ 0 1); [done|lia|lia].
  - apply (build_month_grid_bad_year 0 1); lia.
Qed.

(** The requests [?year=1&month=1] and [?year=9999&month=12] name months
    of the supported range, and [month_view] raises [OverflowError] when
    it steps to the month before and to the month after. *)
Example month_view_edge_months :
  let today := dt.mkdate 2026 11 4 in
  month_view 4300 today today {["year" := "1"; "month" := "1"]}
  = Raise OverflowError ∧
  month_view 4300 today today {["year" := "9999"; "month" := "12"]}
  = Raise OverflowError.
Proof. split; reflexivity. Qed.

(** * Further properties of the view *)

(** ** The shape of the grid *)

Lemma sunday_index_first (y m : Z) :
  days_before y m = Z.to_nat (sunday_index (dt.mkdate y m 1)).
Proof.
  unfold days_before. by rewrite sunday_index_ordinal.
Qed.

Lemma sunday_index_last (y m : Z) :
  days_after y m
  = Z.to_nat (6 - sunday_index (dt.mkdate y m (dt._days_in_month y m))).
Proof.
  unfold days_after. rewrite sunday_index_ordinal.
  unfold dt.toordinal, dt._ymd2ord. cbn [dt.year dt.month dt.day].
  f_equal. Z.div_mod_to_equations; lia.
Qed.

Lemma cells_of_days (y m n : Z) :
  cell_of y m <$> seqZ 1 n
  = (λ d, mkDayCell d (Some (dt.mkdate y m d))) <$> seqZ 1 n.
Proof.
  apply list_fmap_ext. intros i d Hd%list_elem_of_lookup_2%elem_of_seqZ.
  unfold cell_of. destruct (Z.eqb_spec d 0); [lia|done].
Qed.

(** X1.  The cells of the grid of a year in 1..9999 and a month in
    1..12, read week by week, are: as many padding cells as the weekday of
    the first of the month counted from Sunday, then the cells of the days
    1..daysInMonth, each with its date, then as many padding cells as
    days are left in the week after the last day of the month. *)
Theorem build_month_grid_cells (y m : Z) :
  1 ≤ y ≤ 9999 → 1 ≤ m ≤ 12 →
  ∃ weeks,
    _build_month_grid y m = Ok weeks ∧
    concat weeks
    = replicate (Z.to_nat (sunday_index (dt.mkdate y m 1))) (mkDayCell 0 None)
      ++ ((λ d, mkDayCell d (Some (dt.mkdate y m d)))
            <$> seqZ 1 (dt._days_in_month y m))
      ++ replicate
           (Z.to_nat
              (6 - sunday_index (dt.mkdate y m (dt._days_in_month y m))))
           (mkDayCell 0 None).
Proof.
  intros Hy Hm. exists (month_grid y m).
  split; [by apply build_month_grid_valid|].
  unfold month_grid. rewrite grid_cells, weeks_of_concat. unfold month_days.
  rewrite !fmap_app, !fmap_replicate, cells_of_days.
  by rewrite sunday_index_first, sunday_index_last.
Qed.

Lemma build_month_grid_cells_witness :
  1 ≤ 2026 ≤ 9999 ∧ 1 ≤ 11 ≤ 12 ∧
  ∃ weeks,
    _build_month_grid 2026 11 = Ok weeks ∧
    concat weeks
    = replicate (Z.to_nat (sunday_index (dt.mkdate 2026 11 1)))
        (mkDayCell 0 None)
      ++ ((λ d, mkDayCell d (Some (dt.mkdate 2026 11 d)))
            <$> seqZ 1 (dt._days_in_month 2026 11))
      ++ replicate
           (Z.to_nat
              (6 - sunday_index
                     (dt.mkdate 2026 11 (dt._days_in_month 2026 11))))
           (mkDayCell 0 None).
Proof.
  split; [lia|]. split; [lia|]. apply (build_month_grid_cells 2026 11); lia.
Defined.

Lemma month_grid_lookup (y m : Z) (p : nat) (v : Z) :
  1 ≤ m ≤ 12 → month_days y m !! p = Some v →
  ∃ week, month_grid y m !! (p / 7)%nat = Some week ∧
          week !! (p mod 7)%nat = Some (cell_of y m v).
Proof.
  intros Hm Hv. pose proof (lookup_lt_Some _ _ _ Hv) as Hp.
  pose proof (Nat.div_mod_eq p 7) as Hdiv.
  pose proof (Nat.mod_upper_bound p 7) as Hmod.
  assert (weeks_of (month_days y m) !! (p / 7)%nat
          = Some (take 7 (drop (7 * (p / 7)) (month_days y m)))) as Hw.
  { apply weeks_of_lookup. split; [|done].
    pose proof (Nat.div_mod_eq (length (month_days y m) + 6) 7).
    pose proof (Nat.mod_upper_bound (length (month_days y m) + 6) 7). lia. }
  exists (cells_of y m (take 7 (drop (7 * (p / 7)) (month_days y m)))).
  unfold month_grid. rewrite list_lookup_fmap, Hw. split; [done|].
  unfold cells_of. rewrite list_lookup_fmap.
  assert (take 7 (drop (7 * (p / 7)) (month_days y m)) !! (p mod 7)%nat
          = Some v) as ->; [|done].
  apply (weeks_of_cell _ _ _ _ _ Hw). split; [lia|].
  by rewrite <- Hdiv.
Qed.

(** X2.  Where a day stands: in the grid of a year in 1..9999 and a
    month in 1..12, the cell of day [d] of the month is cell number
    [s + d - 1] in reading order, where [s] is the weekday of the first of
    the month counted from Sunday; that is column [(s + d - 1) mod 7] of
    week [(s + d - 1) / 7], and the cell carries [date(year, month, d)]. *)
Theorem build_month_grid_day_position (y m d : Z) :
  1 ≤ y ≤ 9999 → 1 ≤ m ≤ 12 → 1 ≤ d ≤ dt._days_in_month y m →
  ∃ weeks week,
    let p := Z.to_nat (sunday_index (dt.mkdate y m 1) + d - 1) in
    _build_month_grid y m = Ok weeks ∧
    weeks !! (p / 7)%nat = Some week ∧
    week !! (p mod 7)%nat = Some (mkDayCell d (Some (dt.mkdate y m d))).
Proof.
  intros Hy Hm Hd. cbv zeta.
  set (p := Z.to_nat (sunday_index (dt.mkdate y m 1) + d - 1)).
  assert (p = (days_before y m + Z.to_nat (d - 1))%nat) as Hp.
  { subst p. rewrite sunday_index_first.
    unfold sunday_index. Z.div_mod_to_equations; lia. }
  destruct (month_days_length y m Hm) as (k & Hk & Hsum & Hlen).
  assert (month_days y m !! p = Some d) as Hv.
  { apply month_days_lookup; [done|]. rewrite Hlen.
    split; [lia|]. case_decide; lia. }
  destruct (month_grid_lookup y m p d Hm Hv) as (week & Hw & Hc).
  exists (month_grid y m), week.
  split; [by apply build_month_grid_valid|]. split; [done|].
  rewrite Hc. unfold cell_of. destruct (Z.eqb_spec d 0); [lia|done].
Qed.

Lemma build_month_grid_day_position_witness :
  1 ≤ 2024 ≤ 9999 ∧ 1 ≤ 2 ≤ 12 ∧ 1 ≤ 29 ≤ dt._days_in_month 2024 2 ∧
  ∃ weeks week,
    let p := Z.to_nat (sunday_index (dt.mkdate 2024 2 1) + 29 - 1) in
    _build_month_grid 2024 2 = Ok weeks ∧
    weeks !! (p / 7)%nat = Some week ∧
    week !! (p mod 7)%nat = Some (mkDayCell 29 (Some (dt.mkdate 2024 2 29))).
Proof.
  assert (1 ≤ 29 ≤ dt._days_in_month 2024 2) as Hd by (vm_compute; split; discriminate).
  split; [lia|]. split; [lia|]. split; [exact Hd|].
  apply (build_month_grid_day_position 2024 2 29); [lia|lia|exact Hd].
Defined.

(** X3.  The number of weeks of the grid of a year in 1..9999 and a
    month in 1..12 is [(s + n + 6) // 7], where [s] is the weekday of the
    first of the month counted from Sunday and [n] the number of days of
    the month.  So the grid has 4 weeks exactly for a February of 28 days
    that starts on a Sunday, and 6 weeks exactly when [s + n] exceeds
    35. *)
Theorem build_month_grid_week_formula (y m : Z) :
  1 ≤ y ≤ 9999 → 1 ≤ m ≤ 12 →
  ∃ weeks,
    let s := sunday_index (dt.mkdate y m 1) in
    let n := dt._days_in_month y m in
    _build_month_grid y m = Ok weeks ∧
    Z.of_nat (length weeks) = (s + n + 6) / 7 ∧
    (length weeks = 4%nat ↔ m = 2 ∧ n = 28 ∧ s = 0) ∧
    (length weeks = 6%nat ↔ 35 < s + n).
Proof.
  intros Hy Hm. exists (month_grid y m). cbv zeta.
  split; [by apply build_month_grid_valid|].
  destruct (month_days_length y m Hm) as (k & Hk & Hsum & Hlen).
  destruct (weeks_of_full _ _ Hlen) as [Hn _].
  assert (length (month_grid y m) = k) as ->
    by (unfold month_grid; by rewrite length_fmap).
  pose proof (days_in_month_bounds y m Hm) as Hd.
  pose proof (days_after_lt y m) as Ha.
  pose proof (days_before_lt y m) as Hb.
  rewrite sunday_index_first in Hsum, Hb.
  assert (0 ≤ sunday_index (dt.mkdate y m 1) < 7) as Hs
    by (unfold sunday_index; Z.div_mod_to_equations; lia).
  assert (dt._days_in_month y m = 28 → m = 2) as Hfeb.
  { unfold dt._days_in_month.
    destruct (dt._is_leap y); month_split Hm; eval_tables; lia. }
  repeat split; try (Z.div_mod_to_equations; lia).
Qed.

Lemma build_month_grid_week_formula_witness :
  1 ≤ 2026 ≤ 9999 ∧ 1 ≤ 2 ≤ 12 ∧
  ∃ weeks,
    let s := sunday_index (dt.mkdate 2026 2 1) in
    let n := dt._days_in_month 2026 2 in
    _build_month_grid 2026 2 = Ok weeks ∧
    Z.of_nat (length weeks) = (s + n + 6) / 7 ∧
    (length weeks = 4%nat ↔ 2 = 2 ∧ n = 28 ∧ s = 0) ∧
    (length weeks = 6%nat ↔ 35 < s + n).
Proof.
  split; [lia|]. split; [lia|].
  apply (build_month_grid_week_formula 2026 2); lia.
Defined.

(** X4.  No week of the grid of a year in 1..9999 and a month in 1..12
    is made of padding cells only. *)
Theorem build_month_grid_no_empty_week (y m : Z) :
  1 ≤ y ≤ 9999 → 1 ≤ m ≤ 12 →
  ∃ weeks, _build_month_grid y m = Ok weeks ∧
           Forall (λ week, ∃ c, c ∈ week ∧ day c ≠ 0) weeks.
Proof.
  intros Hy Hm. exists (month_grid y m).
  split; [by apply build_month_grid_valid|].
  destruct (month_days_length y m Hm) as (k & Hk & Hsum & Hlen).
  destruct (weeks_of_full _ _ Hlen) as [Hn _].
  destruct (month_grid_weeks y m Hm) as [_ Hseven].
  assert (length (month_grid y m) = k) as Hgrid
    by (unfold month_grid; by rewrite length_fmap).
  pose proof (days_in_month_bounds y m Hm) as Hd.
  pose proof (days_after_lt y m) as Ha.
  pose proof (days_before_lt y m) as Hb.
  apply Forall_lookup. intros i week Hweek.
  pose proof (lookup_lt_Some _ _ _ Hweek) as Hi. rewrite Hgrid in Hi.
  pose proof (Forall_lookup_1 _ _ _ _ Hseven Hweek) as Hlen7. cbv beta in Hlen7.
  set (j := if decide (i = 0%nat) then days_before y m else 0%nat).
  assert (j < 7)%nat as Hj by (subst j; case_decide; lia).
  destruct (lookup_lt_is_Some_2 week j) as [c Hc]; [lia|].
  exists c. split; [by eapply list_elem_of_lookup_2|].
  destruct (month_grid_cell _ _ _ _ _ _ Hweek Hc) as (v & -> & _ & Hv).
  apply month_days_lookup in Hv as [_ Hv]; [|done].
  rewrite cell_of_day. subst j.
  repeat case_decide; lia.
Qed.

Lemma build_month_grid_no_empty_week_witness :
  1 ≤ 2026 ≤ 9999 ∧ 1 ≤ 5 ≤ 12 ∧
  ∃ weeks, _build_month_grid 2026 5 = Ok weeks ∧
           Forall (λ week, ∃ c, c ∈ week ∧ day c ≠ 0) weeks.
Proof.
  split; [lia|]. split; [lia|].
  apply (build_month_grid_no_empty_week 2026 5); lia.
Defined.

(** X5.  [_build_month_grid] returns a grid exactly for a year in
    1..9999 and a month in 1..12.  For any other month it raises
    [IllegalMonthError(month)], whatever the year.  For a month in 1..12
    and a year outside 1..9999 it raises [ValueError] when the year is a
    C [int] (-2147483648..2147483647) and [OverflowError] when it is
    not. *)
Theorem build_month_grid_outcome (y m : Z) :
  (1 ≤ y ≤ 9999 ∧ 1 ≤ m ≤ 12 ∧ ∃ weeks, _build_month_grid y m = Ok weeks) ∨
  (¬ 1 ≤ m ≤ 12 ∧ _build_month_grid y m = Raise (IllegalMonthError m)) ∨
  (1 ≤ m ≤ 12 ∧ ¬ 1 ≤ y ≤ 9999 ∧ -2147483648 ≤ y ≤ 2147483647 ∧
   _build_month_grid y m = Raise ValueError) ∨
  (1 ≤ m ≤ 12 ∧ ¬ -2147483648 ≤ y ≤ 2147483647 ∧
   _build_month_grid y m = Raise OverflowError).
Proof.
  destruct (decide (1 ≤ m ≤ 12)) as [Hm|Hm];
    [|right; left; split; [done|by apply build_month_grid_bad_month]].
  destruct (decide (1 ≤ y ≤ 9999)) as [Hy|Hy].
  - left. do 2 (split; [done|]). eexists. by apply build_month_grid_valid.
  - right. right. rewrite (build_month_grid_bad_year y m Hy Hm).
    destruct (year_error_cases y) as [[Hi ->]|[Hi ->]]; [left|right]; done.
Qed.

(** X6.  The day numbers of the grid repeat every 400 years: for a month
    in 1..12 the grids of the years [y] and [y + 400], both in 1..9999,
    hold the same day numbers in the same cells. *)
Theorem build_month_grid_400_years (y m : Z) :
  1 ≤ y → y + 400 ≤ 9999 → 1 ≤ m ≤ 12 →
  ∃ weeks weeks' : list (list DayCell),
    _build_month_grid y m = Ok weeks ∧
    _build_month_grid (y + 400) m = Ok weeks' ∧
    (λ week : list DayCell, day <$> week) <$> weeks
    = (λ week : list DayCell, day <$> week) <$> weeks'.
Proof.
  intros Hlo Hhi Hm. exists (month_grid y m), (month_grid (y + 400) m).
  split; [apply build_month_grid_valid; lia|].
  split; [apply build_month_grid_valid; lia|].
  assert (month_days (y + 400) m = month_days y m) as Hdays.
  { unfold month_days, days_before, days_after, dt._ymd2ord,
      dt._days_before_month, dt._days_in_month.
    replace (y + 400) with (y + 400 * 1) by lia.
    rewrite days_before_year_shift, is_leap_shift.
    f_equal; [|f_equal]; apply (f_equal (λ k, replicate (Z.to_nat k) 0));
      Z.div_mod_to_equations; lia. }
  unfold month_grid. rewrite Hdays, <- !list_fmap_compose.
  apply list_fmap_ext. intros _ week _. unfold compose, cells_of.
  by rewrite !grid_days.
Qed.

Lemma build_month_grid_400_years_witness :
  1 ≤ 1626 ∧ 1626 + 400 ≤ 9999 ∧ 1 ≤ 11 ≤ 12 ∧
  ∃ weeks weeks' : list (list DayCell),
    _build_month_grid 1626 11 = Ok weeks ∧
    _build_month_grid (1626 + 400) 11 = Ok weeks' ∧
    (λ week : list DayCell, day <$> week) <$> weeks
    = (λ week : list DayCell, day <$> week) <$> weeks'.
Proof.
  split; [lia|]. split; [lia|]. split; [lia|].
  apply (build_month_grid_400_years 1626 11); lia.
Defined.

(** ** The navigation targets *)

Lemma adjacentMonths_out_of_range (y m : Z) :
  ¬ (1 ≤ y ≤ 9999 ∧ 1 ≤ m ≤ 12) →
  adjacentMonths y m
  = Raise (if decide (-2147483648 ≤ y ≤ 2147483647 ∧
                      -2147483648 ≤ m ≤ 2147483647)
           then ValueError else OverflowError).
Proof.
  intros H. unfold adjacentMonths.
  by rewrite new_invalid_cases by (done || lia).
Qed.

(** What [adjacentMonths] does on every input. *)
Lemma adjacentMonths_cases (y m : Z) :
  (¬ (1 ≤ y ≤ 9999 ∧ 1 ≤ m ≤ 12) ∧
   -2147483648 ≤ y ≤ 2147483647 ∧ -2147483648 ≤ m ≤ 2147483647 ∧
   adjacentMonths y m = Raise ValueError) ∨
  (¬ (-2147483648 ≤ y ≤ 2147483647 ∧ -2147483648 ≤ m ≤ 2147483647) ∧
   adjacentMonths y m = Raise OverflowError) ∨
  (((y, m) = (1, 1) ∨ (y, m) = (9999, 12)) ∧
   adjacentMonths y m = Raise OverflowError) ∨
  (1 ≤ y ≤ 9999 ∧ 1 ≤ m ≤ 12 ∧ (y, m) ≠ (1, 1) ∧ (y, m) ≠ (9999, 12) ∧
   adjacentMonths y m
   = Ok ((previous_month y m).1, (previous_month y m).2,
         (following_month y m).1, (following_month y m).2)).
Proof.
  destruct (decide (1 ≤ y ≤ 9999 ∧ 1 ≤ m ≤ 12)) as [[Hy Hm]|H].
  - do 2 right. destruct (decide ((y, m) = (1, 1))) as [[= -> ->]|Hlo];
      [left; split; [by left|reflexivity]|].
    destruct (decide ((y, m) = (9999, 12))) as [[= -> ->]|Hhi];
      [left; split; [by right|reflexivity]|].
    right. do 4 (split; [done|]). by apply adjacentMonths_inside.
  - rewrite (adjacentMonths_out_of_range y m H).
    case_decide as Hi; [left; tauto|right; left; done].
Qed.

Lemma adjacentMonths_returns (y m py pm ny nm : Z) :
  adjacentMonths y m = Ok (py, pm, ny, nm) →
  1 ≤ y ≤ 9999 ∧ 1 ≤ m ≤ 12 ∧ (y, m) ≠ (1, 1) ∧ (y, m) ≠ (9999, 12) ∧
  (py, pm) = previous_month y m ∧ (ny, nm) = following_month y m.
Proof.
  intros H.
  destruct (adjacentMonths_cases y m)
    as [(_ & _ & _ & E)|[[_ E]|[[_ E]|(Hy & Hm & Hlo & Hhi & E)]]];
    rewrite E in H; try discriminate.
  injection H as <- <- <- <-.
  by destruct (previous_month y m), (following_month y m).
Qed.

(** X7.  [adjacentMonths] returns exactly for a year in 1..9999 and a
    month in 1..12 other than January of year 1 and December of year
    9999.  It raises [ValueError] exactly when the year or the month is
    out of range and both are C [int]s (-2147483648..2147483647), and
    [OverflowError] exactly for these two months and when the year or the
    month is not a C [int]; it raises nothing else. *)
Theorem adjacentMonths_outcome (y m : Z) :
  ((∃ r, adjacentMonths y m = Ok r) ↔
   1 ≤ y ≤ 9999 ∧ 1 ≤ m ≤ 12 ∧ (y, m) ≠ (1, 1) ∧ (y, m) ≠ (9999, 12)) ∧
  (adjacentMonths y m = Raise ValueError ↔
   ¬ (1 ≤ y ≤ 9999 ∧ 1 ≤ m ≤ 12) ∧
   -2147483648 ≤ y ≤ 2147483647 ∧ -2147483648 ≤ m ≤ 2147483647) ∧
  (adjacentMonths y m = Raise OverflowError ↔
   (y, m) = (1, 1) ∨ (y, m) = (9999, 12) ∨
   ¬ (-2147483648 ≤ y ≤ 2147483647 ∧ -2147483648 ≤ m ≤ 2147483647)) ∧
  (∀ e, adjacentMonths y m = Raise e → e = ValueError ∨ e = OverflowError).
Proof.
  destruct (adjacentMonths_cases y m)
    as [(H & Hiy & Him & E)|[[H E]|[[H E]|(Hy & Hm & Hlo & Hhi & E)]]];
    rewrite E;
    repeat split; intros;
    repeat match goal with
    | H : ∃ _, _ |- _ => destruct H
    | H : _ ∧ _ |- _ => destruct H
    | H : _ ∨ _ |- _ => destruct H
    end; simplify_eq; try done; try tauto; try lia; eauto;
    try (exfalso; apply H; lia).
Qed.

Lemma following_previous (y m : Z) :
  1 ≤ m ≤ 12 →
  following_month (previous_month y m).1 (previous_month y m).2 = (y, m).
Proof.
  intros Hm. unfold previous_month. destruct (Z.eqb_spec m 1); cbn [fst snd];
    unfold following_month;
    match goal with |- context [?a =? 12] => destruct (Z.eqb_spec a 12) end;
    f_equal; lia.
Qed.

Lemma previous_following (y m : Z) :
  1 ≤ m ≤ 12 →
  previous_month (following_month y m).1 (following_month y m).2 = (y, m).
Proof.
  intros Hm. unfold following_month. destruct (Z.eqb_spec m 12); cbn [fst snd];
    unfold previous_month;
    match goal with |- context [?a =? 1] => destruct (Z.eqb_spec a 1) end;
    f_equal; lia.
Qed.

(** X8.  Stepping to the previous month and then to the next month, or
    the other way round, comes back: when [adjacentMonths] returns for a
    month and for its previous (next) month, the next (previous) month of
    that one is the month itself. *)
Theorem adjacentMonths_round_trip (y m py pm ny nm : Z) :
  adjacentMonths y m = Ok (py, pm, ny, nm) →
  (∀ a b c d, adjacentMonths py pm = Ok (a, b, c, d) → (c, d) = (y, m)) ∧
  (∀ a b c d, adjacentMonths ny nm = Ok (a, b, c, d) → (a, b) = (y, m)).
Proof.
  intros (Hy & Hm & _ & _ & Hp & Hn)%adjacentMonths_returns.
  split; intros a b c d (_ & _ & _ & _ & Hp' & Hn')%adjacentMonths_returns.
  - rewrite Hn'. replace py with (previous_month y m).1 by by rewrite <- Hp.
    replace pm with (previous_month y m).2 by by rewrite <- Hp.
    by apply following_previous.
  - rewrite Hp'. replace ny with (following_month y m).1 by by rewrite <- Hn.
    replace nm with (following_month y m).2 by by rewrite <- Hn.
    by apply previous_following.
Qed.

Lemma adjacentMonths_round_trip_witness :
  adjacentMonths 2024 1 = Ok (2023, 12, 2024, 2) ∧
  (∀ a b c d, adjacentMonths 2023 12 = Ok (a, b, c, d) →
              (c, d) = (2024, 1)) ∧
  (∀ a b c d, adjacentMonths 2024 2 = Ok (a, b, c, d) → (a, b) = (2024, 1)).
Proof.
  split; [reflexivity|].
  apply (adjacentMonths_round_trip 2024 1 2023 12 2024 2). reflexivity.
Defined.

(** X9.  The targets that [adjacentMonths] returns are months of the
    supported range, one month before and one month after the month
    asked for (counting months as [12 * year + month]). *)
Theorem adjacentMonths_targets (y m py pm ny nm : Z) :
  adjacentMonths y m = Ok (py, pm, ny, nm) →
  1 ≤ py ≤ 9999 ∧ 1 ≤ pm ≤ 12 ∧ 1 ≤ ny ≤ 9999 ∧ 1 ≤ nm ≤ 12 ∧
  12 * py + pm = 12 * y + m - 1 ∧ 12 * ny + nm = 12 * y + m + 1.
Proof.
  intros (Hy & Hm & Hlo & Hhi & Hp & Hn)%adjacentMonths_returns.
  destruct (previous_month_valid y m Hy Hm Hlo) as [Hpy Hpm].
  destruct (following_month_valid y m Hy Hm Hhi) as [Hny Hnm].
  rewrite <- Hp, <- Hn in *. cbn [fst snd] in *.
  unfold previous_month, following_month in *.
  destruct (Z.eqb_spec m 1), (Z.eqb_spec m 12);
    injection Hp as -> ->; injection Hn as -> ->; lia.
Qed.

Lemma adjacentMonths_targets_witness :
  adjacentMonths 2024 12 = Ok (2024, 11, 2025, 1) ∧
  1 ≤ 2024 ≤ 9999 ∧ 1 ≤ 11 ≤ 12 ∧ 1 ≤ 2025 ≤ 9999 ∧ 1 ≤ 1 ≤ 12 ∧
  12 * 2024 + 11 = 12 * 2024 + 12 - 1 ∧ 12 * 2025 + 1 = 12 * 2024 + 12 + 1.
Proof.
  split; [reflexivity|].
  apply (adjacentMonths_targets 2024 12 2024 11 2025 1). reflexivity.
Defined.

(** ** Dates and their ordinals *)

(** X10.  The dates that [month_view] computes with go to their ordinal
    and back: for every date [x] that [date(year, month, day)] constructs,
    the ordinal of [x] lies in 1..3652059 and [date.fromordinal] of it is
    [x] again. *)
Theorem date_ordinal_round_trip (y m d : Z) (x : dt.date) :
  dt.new y m d = Ok x →
  0 < dt.toordinal x ≤ dt._MAXORDINAL ∧
  dt.fromordinal (dt.toordinal x) = Ok x.
Proof.
  intros (Hy & Hm & Hd & ->)%new_Ok_range.
  unfold dt.toordinal. cbn [dt.year dt.month dt.day].
  split; [by apply ymd2ord_bounds|by apply fromordinal_ymd2ord].
Qed.

Lemma date_ordinal_round_trip_witness :
  dt.new 2024 2 29 = Ok (dt.mkdate 2024 2 29) ∧
  0 < dt.toordinal (dt.mkdate 2024 2 29) ≤ dt._MAXORDINAL ∧
  dt.fromordinal (dt.toordinal (dt.mkdate 2024 2 29))
  = Ok (dt.mkdate 2024 2 29).
Proof.
  split; [reflexivity|].
  apply (date_ordinal_round_trip 2024 2 29). reflexivity.
Defined.

(** ** The request *)

(** X11.  [_parse_year_month] never raises.  When today's month is in
    1..12, as it is for every date, the month that it returns is in 1..12
    and the year that it returns is today's year or the integer that
    [int] reads from the year of the request. *)
Theorem parse_year_month_never_raises (limit : nat) (today : dt.date)
    (GET : gmap string string) :
  1 ≤ dt.month today ≤ 12 →
  ∃ y m,
    _parse_year_month limit today GET = Ok (y, m) ∧ 1 ≤ m ≤ 12 ∧
    (y = dt.year today ∨
     ∃ s, GET !! "year" = Some s ∧ pyint.int_of_str limit s = Ok y).
Proof.
  intros Ht.
  destruct (int_cases limit (get GET "year" (dt.year today)))
    as [[y Hy]|Hy];
    [|eexists _, _; split; [apply parse_year_month_rejects; eauto|];
      split; [done|by left]].
  destruct (int_cases limit (get GET "month" (dt.month today)))
    as [[m Hm]|Hm];
    [|eexists _, _; split; [apply parse_year_month_rejects; eauto|];
      split; [done|by left]].
  destruct (decide (1 ≤ m ≤ 12)) as [Hr|Hr];
    [|eexists _, _; split; [apply parse_year_month_rejects; eauto|];
      split; [done|by left]].
  exists y, m. split; [by apply parse_year_month_accepts|]. split; [done|].
  unfold get in Hy. destruct (GET !! "year") as [s|] eqn:Hs; cbn in Hy.
  - right. eauto.
  - left. congruence.
Qed.

Lemma parse_year_month_never_raises_witness :
  1 ≤ dt.month (dt.mkdate 2026 11 4) ≤ 12 ∧
  ∃ y m,
    _parse_year_month 4300 (dt.mkdate 2026 11 4)
      {["year" := "abc"; "month" := "7"]} = Ok (y, m) ∧
    1 ≤ m ≤ 12 ∧
    (y = dt.year (dt.mkdate 2026 11 4) ∨
     ∃ s, ({["year" := "abc"; "month" := "7"]} : gmap string string)
          !! "year" = Some s ∧
          pyint.int_of_str 4300 s = Ok y).
Proof.
  assert (1 ≤ dt.month (dt.mkdate 2026 11 4) ≤ 12) as Ht by (cbn; lia).
  split; [exact Ht|].
  apply (parse_year_month_never_raises 4300 (dt.mkdate 2026 11 4)
           {["year" := "abc"; "month" := "7"]} Ht).
Defined.

(** ** The view as a whole *)

Lemma fmap_Ok {A B} (f : A → B) (a : A) : f <$> Ok a = Ok (f a).
Proof. reflexivity. Qed.

Lemma month_view_inside (limit : nat) (today today' : dt.date)
    (GET : gmap string string) (y m : Z) :
  _parse_year_month limit today GET = Ok (y, m) →
  1 ≤ y ≤ 9999 → 1 ≤ m ≤ 12 → (y, m) ≠ (1, 1) → (y, m) ≠ (9999, 12) →
  month_view limit today today' GET
  = Ok (mkContext y m (nth (Z.to_nat (m - 1)) dt.month_names EmptyString)
          (month_grid y m)
          (previous_month y m).1 (previous_month y m).2
          (following_month y m).1 (following_month y m).2 today').
Proof.
  intros Hp Hy Hm Hlo Hhi. pose proof (days_in_month_bounds y m Hm) as Hd.
  unfold month_view. rewrite Hp, bind_Ok.
  rewrite new_valid, fmap_Ok, bind_Ok by lia.
  rewrite adjacentMonths_inside, bind_Ok by done.
  rewrite build_month_grid_valid, bind_Ok by done. reflexivity.
Qed.

Lemma month_view_edge (limit : nat) (today today' : dt.date)
    (GET : gmap string string) (y m : Z) :
  _parse_year_month limit today GET = Ok (y, m) →
  (y, m) = (1, 1) ∨ (y, m) = (9999, 12) →
  month_view limit today today' GET = Raise OverflowError.
Proof.
  intros Hp H. unfold month_view. rewrite Hp, bind_Ok.
  destruct H as [[= -> ->]|[= -> ->]]; reflexivity.
Qed.

(** X12.  What a request is answered with: when today's month is in
    1..12 and [_parse_year_month] reads [(y, m)] with [y] in 1..9999,
    other than January of year 1 and December of year 9999, [month_view]
    hands to the template the context made of [y], [m], the English name
    of month [m], the grid of [_build_month_grid y m], the month before,
    the month after and today's date. *)
Theorem month_view_context (limit : nat) (today today' : dt.date)
    (GET : gmap string string) (y m : Z) :
  1 ≤ dt.month today ≤ 12 →
  _parse_year_month limit today GET = Ok (y, m) →
  1 ≤ y ≤ 9999 → (y, m) ≠ (1, 1) → (y, m) ≠ (9999, 12) →
  ∃ weeks name,
    _build_month_grid y m = Ok weeks ∧
    dt.month_names !! Z.to_nat (m - 1) = Some name ∧
    month_view limit today today' GET
    = Ok {| ctx_year := y; ctx_month := m; ctx_month_name := name;
            ctx_weeks := weeks;
            ctx_prev_year := if m =? 1 then y - 1 else y;
            ctx_prev_month := if m =? 1 then 12 else m - 1;
            ctx_next_year := if m =? 12 then y + 1 else y;
            ctx_next_month := if m =? 12 then 1 else m + 1;
            ctx_today := today' |}.
Proof.
  intros Ht Hp Hy Hlo Hhi.
  destruct (parse_year_month_total limit today GET Ht) as (y' & m' & Hp' & Hm).
  rewrite Hp in Hp'. injection Hp' as <- <-.
  exists (month_grid y m), (nth (Z.to_nat (m - 1)) dt.month_names EmptyString).
  split; [by apply build_month_grid_valid|]. split.
  - month_split Hm; reflexivity.
  - rewrite (month_view_inside _ _ _ _ y m) by done.
    unfold previous_month, following_month.
    by destruct (m =? 1), (m =? 12).
Qed.

Lemma month_view_context_witness :
  let today := dt.mkdate 2026 11 4 in
  let GET : gmap string string := {["year" := "2024"; "month" := "2"]} in
  1 ≤ dt.month today ≤ 12 ∧
  _parse_year_month 4300 today GET = Ok (2024, 2) ∧
  1 ≤ 2024 ≤ 9999 ∧ (2024, 2) ≠ (1, 1) ∧ (2024, 2) ≠ (9999, 12) ∧
  ∃ weeks name,
    _build_month_grid 2024 2 = Ok weeks ∧
    dt.month_names !! Z.to_nat (2 - 1) = Some name ∧
    month_view 4300 today today GET
    = Ok {| ctx_year := 2024; ctx_month := 2; ctx_month_name := name;
            ctx_weeks := weeks;
            ctx_prev_year := 2024; ctx_prev_month := 1;
            ctx_next_year := 2024; ctx_next_month := 3;
            ctx_today := today |}.
Proof.
  cbv zeta.
  assert (1 ≤ dt.month (dt.mkdate 2026 11 4) ≤ 12) as Ht by (cbn; lia).
  assert ((2024, 2) ≠ (1, 1)) as Hlo by discriminate.
  assert ((2024, 2) ≠ (9999, 12)) as Hhi by discriminate.
  split; [exact Ht|]. split; [reflexivity|]. split; [lia|].
  split; [exact Hlo|]. split; [exact Hhi|].
  apply (month_view_context 4300 (dt.mkdate 2026 11 4) (dt.mkdate 2026 11 4)
           {["year" := "2024"; "month" := "2"]} 2024 2 Ht);
    [reflexivity|lia|exact Hlo|exact Hhi].
Defined.

(** X13.  The only ways [month_view] ends, when today's month is in
    1..12: with [(y, m)] what [_parse_year_month] reads, it raises
    [ValueError] when [y] is outside 1..9999 and is a C [int]
    (-2147483648..2147483647), it raises [OverflowError] when [y] is not
    a C [int] and for January of year 1 and December of year 9999, and
    otherwise it returns a context for [(y, m)].  It raises nothing else,
    neither [TypeError] nor [IllegalMonthError]. *)
Theorem month_view_outcome (limit : nat) (today today' : dt.date)
    (GET : gmap string string) :
  1 ≤ dt.month today ≤ 12 →
  ∃ y m,
    _parse_year_month limit today GET = Ok (y, m) ∧ 1 ≤ m ≤ 12 ∧
    ((¬ 1 ≤ y ≤ 9999 ∧ -2147483648 ≤ y ≤ 2147483647 ∧
      month_view limit today today' GET = Raise ValueError) ∨
     (((y, m) = (1, 1) ∨ (y, m) = (9999, 12) ∨
       ¬ -2147483648 ≤ y ≤ 2147483647) ∧
      month_view limit today today' GET = Raise OverflowError) ∨
     (1 ≤ y ≤ 9999 ∧ (y, m) ≠ (1, 1) ∧ (y, m) ≠ (9999, 12) ∧
      ∃ ctx, month_view limit today today' GET = Ok ctx ∧
             ctx_year ctx = y ∧ ctx_month ctx = m ∧
             _build_month_grid y m = Ok (ctx_weeks ctx))).
Proof.
  intros Ht.
  destruct (parse_year_month_total limit today GET Ht) as (y & m & Hp & Hm).
  exists y, m. do 2 (split; [done|]).
  destruct (decide (1 ≤ y ≤ 9999)) as [Hy|Hy].
  - right.
    destruct (decide ((y, m) = (1, 1) ∨ (y, m) = (9999, 12))) as [He|He];
      [left; split; [tauto|by apply (month_view_edge _ _ _ _ y m)]|].
    right. split; [done|]. split; [tauto|]. split; [tauto|].
    eexists. split; [apply (month_view_inside _ _ _ _ y m); (done || tauto)|].
    cbn. do 2 (split; [done|]). by apply build_month_grid_valid.
  - rewrite (month_view_bad_year _ _ today' _ y m Hp Hy Hm).
    destruct (year_error_cases y) as [[Hi ->]|[Hi ->]];
      [left; done|right; left; split; [tauto|done]].
Qed.

Lemma month_view_outcome_witness :
  let today := dt.mkdate 2026 11 4 in
  let GET : gmap string string := {["year" := "1"; "month" := "1"]} in
  1 ≤ dt.month today ≤ 12 ∧
  ∃ y m,
    _parse_year_month 4300 today GET = Ok (y, m) ∧ 1 ≤ m ≤ 12 ∧
    ((¬ 1 ≤ y ≤ 9999 ∧ -2147483648 ≤ y ≤ 2147483647 ∧
      month_view 4300 today today GET = Raise ValueError) ∨
     (((y, m) = (1, 1) ∨ (y, m) = (9999, 12) ∨
       ¬ -2147483648 ≤ y ≤ 2147483647) ∧
      month_view 4300 today today GET = Raise OverflowError) ∨
     (1 ≤ y ≤ 9999 ∧ (y, m) ≠ (1, 1) ∧ (y, m) ≠ (9999, 12) ∧
      ∃ ctx, month_view 4300 today today GET = Ok ctx ∧
             ctx_year ctx = y ∧ ctx_month ctx = m ∧
             _build_month_grid y m = Ok (ctx_weeks ctx))).
Proof.
  cbv zeta.
  assert (1 ≤ dt.month (dt.mkdate 2026 11 4) ≤ 12) as Ht by (cbn; lia).
  split; [exact Ht|].
  apply (month_view_outcome 4300 (dt.mkdate 2026 11 4) (dt.mkdate 2026 11 4)
           {["year" := "1"; "month" := "1"]} Ht).
Defined.

(** X14.  A request without a year and without a month shows today's
    month: when today is a date of a year in 1..9999 and a month in
    1..12, other than January of year 1 and December of year 9999,
    [month_view] returns a context for today's year and month with the
    grid of that month. *)
Theorem month_view_default (limit : nat) (today today' : dt.date)
    (GET : gmap string string) :
  GET !! "year" = None → GET !! "month" = None →
  1 ≤ dt.year today ≤ 9999 → 1 ≤ dt.month today ≤ 12 →
  (dt.year today, dt.month today) ≠ (1, 1) →
  (dt.year today, dt.month today) ≠ (9999, 12) →
  ∃ ctx, month_view limit today today' GET = Ok ctx ∧
         ctx_year ctx = dt.year today ∧ ctx_month ctx = dt.month today ∧
         _build_month_grid (dt.year today) (dt.month today)
         = Ok (ctx_weeks ctx) ∧
         ctx_today ctx = today'.
Proof.
  intros Hy Hm Hty Htm Hlo Hhi.
  assert (_parse_year_month limit today GET
          = Ok (dt.year today, dt.month today)) as Hp.
  { apply parse_year_month_accepts; [| |done]; unfold get;
      by rewrite ?Hy, ?Hm. }
  eexists. split; [by apply (month_view_inside _ _ _ _ _ _ Hp)|].
  cbn. do 2 (split; [done|]). split; [|done].
  by apply build_month_grid_valid.
Qed.

Lemma month_view_default_witness :
  let today := dt.mkdate 2026 11 4 in
  let GET : gmap string string := {["page" := "2"]} in
  GET !! "year" = None ∧ GET !! "month" = None ∧
  1 ≤ dt.year today ≤ 9999 ∧ 1 ≤ dt.month today ≤ 12 ∧
  (dt.year today, dt.month today) ≠ (1, 1) ∧
  (dt.year today, dt.month today) ≠ (9999, 12) ∧
  ∃ ctx, month_view 4300 today today GET = Ok ctx ∧
         ctx_year ctx = dt.year today ∧ ctx_month ctx = dt.month today ∧
         _build_month_grid (dt.year today) (dt.month today)
         = Ok (ctx_weeks ctx) ∧
         ctx_today ctx = today.
Proof.
  cbv zeta.
  assert (1 ≤ dt.year (dt.mkdate 2026 11 4) ≤ 9999) as Hty by (cbn; lia).
  assert (1 ≤ dt.month (dt.mkdate 2026 11 4) ≤ 12) as Htm by (cbn; lia).
  assert ((dt.year (dt.mkdate 2026 11 4), dt.month (dt.mkdate 2026 11 4))
          ≠ (1, 1)) as Hlo by discriminate.
  assert ((dt.year (dt.mkdate 2026 11 4), dt.month (dt.mkdate 2026 11 4))
          ≠ (9999, 12)) as Hhi by discriminate.
  split; [reflexivity|]. split; [reflexivity|]. split; [exact Hty|].
  split; [exact Htm|]. split; [exact Hlo|]. split; [exact Hhi|].
  apply (month_view_default 4300 (dt.mkdate 2026 11 4) (dt.mkdate 2026 11 4)
           {["page" := "2"]});
    [reflexivity|reflexivity|exact Hty|exact Htm|exact Hlo|exact Hhi].
Defined.
